(** * feple-server: the Callytics ingestion pipeline and the two schemas

    A shallow embedding of
    - [apps/callytics/clients.py]   ([call_callytics]),
    - [apps/callytics/tasks.py]     ([run_callytics_pipeline]),
    - [apps/callytics/models.py]    ([Topic], [File], [Utterance] and the
      frame-to-second properties),
    - [apps/callytics/serializers.py] and [apps/callytics/views.py]
      ([FileUploadSerializer], [FileUploadView.post]),
    - [apps/consultlytics/models.py] (the uniqueness declared on the
      tables of a consultation session),
    followed by the properties of the specification stated on it.

    Python values are the values [json.loads] produces; a dict is a finite
    map with string keys.  The database is a record of tables, one list of
    rows per model in insertion order; Django runs in autocommit mode and
    the task opens no transaction, so every [create] is visible as soon as
    it returns and stays so when a later statement raises. *)

From Stdlib Require Import ZArith QArith Lia Ascii String.
From Stdlib Require Import Floats.SpecFloat.
From stdpp Require Import gmap strings list fin_maps.

Local Open Scope Z_scope.

(** ** Python values and exceptions *)

#[warnings="-register-all"]
Inductive json : Type :=
| JNull
| JBool (b : bool)
| JInt (z : Z)
| JFloat (q : Q)
| JStr (s : string)
| JArr (l : list json)
| JObj (m : gmap string json).

Abbreviation dict := (gmap string json).

(** The exceptions the modelled code can raise.  [DatabaseError] stands for
    every refusal of a value by a column ([IntegrityError] on a NULL in a
    NOT NULL column, [DataError], and the [ValueError] or [ValidationError]
    of a field's own conversion); [IntegrityError] is kept for a violated
    uniqueness constraint. *)
Inductive exn : Type :=
| KeyError (key : string)
| TypeError
| AttributeError
| ZeroDivisionError
| OverflowError
| OSError
| RequestException
| HTTPError (status : Z)
| JSONDecodeError
| DoesNotExist
| MultipleObjectsReturned
| DatabaseError
| IntegrityError.

Inductive outcome (A : Type) : Type :=
| Raise (e : exn)
| Return (a : A).
Arguments Raise {A} e.
Arguments Return {A} a.

#[global] Instance outcome_ret : MRet outcome := @Return.
#[global] Instance outcome_bind : MBind outcome := λ A B f m,
  match m with
  | Raise e => Raise e
  | Return a => f a
  end.

(** [bool(v)], as [or] tests it. *)
Definition truthy (v : json) : bool :=
  match v with
  | JNull => false
  | JBool b => b
  | JInt z => negb (z =? 0)
  | JFloat q => negb (Qeq_bool q 0)
  | JStr s => negb (String.eqb s "")
  | JArr l => match l with [] => false | _ => true end
  | JObj m => match map_to_list m with [] => false | _ => true end
  end.

(** [v[key]] with a string key. *)
Definition getitem (v : json) (key : string) : outcome json :=
  match v with
  | JObj m => match m !! key with
              | Some x => Return x
              | None => Raise (KeyError key)
              end
  | _ => Raise TypeError
  end.

(** [v.get(key, dflt)]: only a dict has the method. *)
Definition get (v : json) (key : string) (dflt : json) : outcome json :=
  match v with
  | JObj m => Return (default dflt (m !! key))
  | _ => Raise AttributeError
  end.

(** The items [for x in v] visits.  A dict yields its keys and a string its
    characters, one-character strings both. *)
Definition iter (v : json) : outcome (list json) :=
  match v with
  | JArr l => Return l
  | JObj m => Return (JStr <$> (map_to_list m).*1)
  | JStr s => Return ((λ c, JStr (String c EmptyString)) <$> String.list_ascii_of_string s)
  | _ => Raise TypeError
  end.

(** [a / b] on two [int]s as the number it divides out to, before the
    division rounds it to a double.  What Python returns is
    [float_truediv] below; the two raise [ZeroDivisionError] together, and
    the double has the sign of this number. *)
Definition truediv (a b : Z) : outcome Q :=
  if b =? 0 then Raise ZeroDivisionError else Return (inject_Z a / inject_Z b)%Q.

(** A Python [float] is a binary64 number of IEEE 754: a signed zero, or a
    sign, a mantissa and an exponent.  An [int] is the number of mantissa
    [|z|] and exponent 0, whatever its size. *)
Definition exact_int (z : Z) : spec_float :=
  match z with
  | 0 => S754_zero false
  | Zpos p => S754_finite false p 0
  | Zneg p => S754_finite true p 0
  end.

(** The double nearest to the quotient of two [int]s, ties going to the even
    mantissa; a quotient beyond the range of a double raises
    [OverflowError], one below it rounds to a zero of its sign. *)
Definition nearest_double (a b : Z) : outcome spec_float :=
  match SFdiv 53 1024 (exact_int a) (exact_int b) with
  | S754_zero s => Return (S754_zero s)
  | S754_finite s m e => Return (S754_finite s m e)
  | _ => Raise OverflowError
  end.

(** [a / b] on two [int]s, as Python evaluates it: the divisor is tested
    first, then the quotient is rounded once. *)
Definition float_truediv (a b : Z) : outcome spec_float :=
  if b =? 0 then Raise ZeroDivisionError else nearest_double a b.

(** The sign bit of a double. *)
Definition sign_bit (x : spec_float) : bool :=
  match x with
  | S754_zero s | S754_infinity s | S754_finite s _ _ => s
  | S754_nan => false
  end.

(** The number a finite double stands for. *)
Definition float_value (x : spec_float) : Q :=
  match x with
  | S754_finite s m e =>
      ((if s then -1 else 1) * inject_Z (Zpos m) * (2 # 1) ^ e)%Q
  | _ => 0%Q
  end.

(** ** Settings and the database backend *)

(** [django.conf.settings], as far as the code reads it.  [HOP_LENGTH] may
    be left unset. *)
Record Settings : Type := {
  HOP_LENGTH : option Z;
  CALLYTICS_URL : string;
  MEDIA_ROOT : string;
}.

(** [getattr(settings, "HOP_LENGTH", 512)] *)
Definition hop_length (settings : Settings) : Z :=
  default 512 (HOP_LENGTH settings).

(** What a NOT NULL column of each field class stores for a Python value,
    [None] when the field or the database refuses the value.  Which values
    of a foreign type a field coerces, and the width of a column, belong to
    Django and to the database in use; the development is parametric in
    them. *)
Record Backend : Type := {
  CharField : nat → json → option string;
  TextField : json → option string;
  IntegerField : json → option Z;
  BigIntegerField : json → option Z;
  FloatField : json → option Q;
  BooleanField : json → option bool;
  JSONField : json → option json;
}.

(** A column declared [null=True] also stores [None]. *)
Definition nullable {A} (field : json → option A) (v : json) : option (option A) :=
  match v with
  | JNull => Some None
  | _ => Some <$> field v
  end.

(** A backend that takes the values of a column's own type as they are and
    nothing else; the examples run on it. *)
Definition plain : Backend := {|
  CharField max_length v :=
    match v with
    | JStr s => if decide (String.length s ≤ max_length)%nat then Some s else None
    | _ => None
    end;
  TextField v := match v with JStr s => Some s | _ => None end;
  IntegerField v := match v with JInt z => Some z | _ => None end;
  BigIntegerField v := match v with JInt z => Some z | _ => None end;
  FloatField v :=
    match v with JFloat q => Some q | JInt z => Some (inject_Z z) | _ => None end;
  BooleanField v := match v with JBool b => Some b | _ => None end;
  JSONField v := match v with JNull => None | _ => Some v end;
|}.

(** A table: its rows in insertion order and the next value of its
    [AutoField]. *)
Record table (R : Type) : Type := {
  rows : list R;
  next_id : Z;
}.
Arguments rows {R} _.
Arguments next_id {R} _.

Definition empty_table {R} : table R := {| rows := []; next_id := 1 |}.

(** INSERT of the row [mk id] at a fresh [id]. *)
Definition insert {R} (mk : Z → R) (t : table R) : table R :=
  {| rows := rows t ++ [mk (next_id t)]; next_id := next_id t + 1 |}.

(** Several INSERTs in a row. *)
Definition insert_all {R} (mks : list (Z → R)) (t : table R) : table R :=
  foldl (λ t mk, insert mk t) t mks.

(** ** apps/callytics/models.py *)

Module Topic.
Record t : Type := {
  id : Z;
  name : string;
}.

(** What the column [name] holds for the argument [name=v], at an
    INSERT and in the WHERE clause of a lookup alike. *)
Definition name_column (B : Backend) (v : json) : option string :=
  CharField B 100 v.
End Topic.

Module File.
Record t : Type := {
  id : Z;
  name : string;
  topic_id : Z;
  extension : string;
  path : string;
  rate : Z;
  bit_depth : Z;
  channels : Z;
  duration : Z;
  min_freq : Z;
  max_freq : Z;
  rms_loud : Q;
  zero_cross : Z;
  spec_cent : Z;
  spec_bw : Z;
  spec_flat : Z;
  rolloff : Z;
  chroma_stft : json;
  spec_contr : json;
  tonnetz : json;
  mfcc : json;
  summary : option string;
  conflict : bool;
  silence : Z;
  created_at : Z;
}.

(** The keyword arguments of [File.objects.create], all evaluated before
    the call. *)
Record kwargs : Type := {
  kw_topic : Topic.t;
  kw_name : json;
  kw_extension : json;
  kw_path : string;
  kw_rate : json;
  kw_bit_depth : json;
  kw_channels : json;
  kw_duration : json;
  kw_min_freq : json;
  kw_max_freq : json;
  kw_rms_loud : json;
  kw_zero_cross : json;
  kw_spec_cent : json;
  kw_spec_bw : json;
  kw_spec_flat : json;
  kw_rolloff : json;
  kw_chroma_stft : json;
  kw_spec_contr : json;
  kw_tonnetz : json;
  kw_mfcc : json;
  kw_summary : json;
  kw_conflict : json;
  kw_silence : json;
}.

(** The columns of a new row; [now] is the clock read by
    [auto_now_add]. *)
Definition columns (B : Backend) (now : Z) (kw : kwargs) : option (Z → t) :=
  name ← CharField B 200 (kw_name kw);
  extension ← CharField B 10 (kw_extension kw);
  path ← TextField B (JStr (kw_path kw));
  rate ← IntegerField B (kw_rate kw);
  bit_depth ← IntegerField B (kw_bit_depth kw);
  channels ← IntegerField B (kw_channels kw);
  duration ← BigIntegerField B (kw_duration kw);
  min_freq ← IntegerField B (kw_min_freq kw);
  max_freq ← IntegerField B (kw_max_freq kw);
  rms_loud ← FloatField B (kw_rms_loud kw);
  zero_cross ← BigIntegerField B (kw_zero_cross kw);
  spec_cent ← BigIntegerField B (kw_spec_cent kw);
  spec_bw ← BigIntegerField B (kw_spec_bw kw);
  spec_flat ← BigIntegerField B (kw_spec_flat kw);
  rolloff ← BigIntegerField B (kw_rolloff kw);
  chroma_stft ← JSONField B (kw_chroma_stft kw);
  spec_contr ← JSONField B (kw_spec_contr kw);
  tonnetz ← JSONField B (kw_tonnetz kw);
  mfcc ← JSONField B (kw_mfcc kw);
  summary ← nullable (TextField B) (kw_summary kw);
  conflict ← BooleanField B (kw_conflict kw);
  silence ← BigIntegerField B (kw_silence kw);
  Some (λ id,
    {| id := id; name := name; topic_id := Topic.id (kw_topic kw);
       extension := extension; path := path; rate := rate;
       bit_depth := bit_depth; channels := channels; duration := duration;
       min_freq := min_freq; max_freq := max_freq; rms_loud := rms_loud;
       zero_cross := zero_cross; spec_cent := spec_cent; spec_bw := spec_bw;
       spec_flat := spec_flat; rolloff := rolloff;
       chroma_stft := chroma_stft; spec_contr := spec_contr;
       tonnetz := tonnetz; mfcc := mfcc; summary := summary;
       conflict := conflict; silence := silence; created_at := now |}).

(** The property [duration_seconds], as the number it divides out to. *)
Definition duration_seconds (settings : Settings) (self : t) : outcome Q :=
  let hop_length := hop_length settings in
  let sr := rate self in
  truediv (duration self * hop_length) sr.

(** The property [silence_seconds], as the number it divides out to. *)
Definition silence_seconds (settings : Settings) (self : t) : outcome Q :=
  let hop_length := hop_length settings in
  let sr := rate self in
  truediv (silence self * hop_length) sr.

(** The property [duration_seconds], as the [float] it returns. *)
Definition duration_seconds_float (settings : Settings) (self : t)
    : outcome spec_float :=
  let hop_length := hop_length settings in
  let sr := rate self in
  float_truediv (duration self * hop_length) sr.

(** The property [silence_seconds], as the [float] it returns. *)
Definition silence_seconds_float (settings : Settings) (self : t)
    : outcome spec_float :=
  let hop_length := hop_length settings in
  let sr := rate self in
  float_truediv (silence self * hop_length) sr.
End File.

Module Utterance.
Record t : Type := {
  id : Z;
  file_id : Z;
  speaker : string;
  sequence : Z;
  start_time : Z;
  end_time : Z;
  content : string;
  sentiment : string;
  profane : bool;
}.

Record kwargs : Type := {
  kw_file : File.t;
  kw_speaker : json;
  kw_sequence : json;
  kw_start_time : json;
  kw_end_time : json;
  kw_content : json;
  kw_sentiment : json;
  kw_profane : json;
}.

Definition columns (B : Backend) (kw : kwargs) : option (Z → t) :=
  speaker ← CharField B 10 (kw_speaker kw);
  sequence ← IntegerField B (kw_sequence kw);
  start_time ← BigIntegerField B (kw_start_time kw);
  end_time ← BigIntegerField B (kw_end_time kw);
  content ← TextField B (kw_content kw);
  sentiment ← CharField B 10 (kw_sentiment kw);
  profane ← BooleanField B (kw_profane kw);
  Some (λ id,
    {| id := id; file_id := File.id (kw_file kw); speaker := speaker;
       sequence := sequence; start_time := start_time;
       end_time := end_time; content := content; sentiment := sentiment;
       profane := profane |}).

(** [self.file]: the row of [File] the foreign key points to. *)
Definition file (File_objects : table File.t) (self : t) : outcome File.t :=
  match filter (λ f, File.id f = file_id self) (rows File_objects) with
  | f :: _ => Return f
  | [] => Raise DoesNotExist
  end.

(** The property [duration_seconds], as the number it divides out to. *)
Definition duration_seconds (settings : Settings) (File_objects : table File.t)
    (self : t) : outcome Q :=
  let hop_length := hop_length settings in
  file ← file File_objects self;
  let sr := File.rate file in
  truediv ((end_time self - start_time self) * hop_length) sr.

(** The property [duration_seconds], as the [float] it returns. *)
Definition duration_seconds_float (settings : Settings)
    (File_objects : table File.t) (self : t) : outcome spec_float :=
  let hop_length := hop_length settings in
  file ← file File_objects self;
  let sr := File.rate file in
  float_truediv ((end_time self - start_time self) * hop_length) sr.
End Utterance.

(** ** The database and the statements run against it *)

Record Store : Type := {
  Topic_objects : table Topic.t;
  File_objects : table File.t;
  Utterance_objects : table Utterance.t;
}.

Definition empty_store : Store :=
  {| Topic_objects := empty_table; File_objects := empty_table;
     Utterance_objects := empty_table |}.

Definition set_topics (t : table Topic.t) (db : Store) : Store :=
  {| Topic_objects := t; File_objects := File_objects db;
     Utterance_objects := Utterance_objects db |}.

Definition set_files (t : table File.t) (db : Store) : Store :=
  {| Topic_objects := Topic_objects db; File_objects := t;
     Utterance_objects := Utterance_objects db |}.

Definition set_utterances (t : table Utterance.t) (db : Store) : Store :=
  {| Topic_objects := Topic_objects db; File_objects := File_objects db;
     Utterance_objects := t |}.

(** A computation on the database.  It returns the database it leaves
    behind also when it raises: nothing opens a transaction, so what was
    inserted before the exception stays. *)
Definition M (A : Type) : Type := Store → Store * outcome A.

#[global] Instance M_ret : MRet M := λ A a db, (db, Return a).
#[global] Instance M_bind : MBind M := λ A B f m db,
  match m db with
  | (db', Raise e) => (db', Raise e)
  | (db', Return a) => f a db'
  end.

(** An expression that touches no table. *)
Definition pure {A} (o : outcome A) : M A := λ db, (db, o).

Fixpoint for_each {A} (body : A → M ()) (l : list A) : M () :=
  match l with
  | [] => mret ()
  | x :: l' => body x ≫= λ _, for_each body l'
  end.

Section ORM.
Variable B : Backend.

(** [Topic.objects.get_or_create(name=name)]: the row of that name if
    there is exactly one, a new row if there is none.  A name the column
    refuses ([None] among them) matches no row and cannot be inserted. *)
Definition Topic_get_or_create (name : json) : M (Topic.t * bool) := λ db,
  match Topic.name_column B name with
  | None => (db, Raise DatabaseError)
  | Some name =>
      match filter (λ t, Topic.name t = name) (rows (Topic_objects db)) with
      | [] =>
          let mk id := {| Topic.id := id; Topic.name := name |} in
          (set_topics (insert mk (Topic_objects db)) db,
           Return (mk (next_id (Topic_objects db)), true))
      | [topic] => (db, Return (topic, false))
      | _ => (db, Raise MultipleObjectsReturned)
      end
  end.

(** [File.objects.create] on the keyword arguments [kw] *)
Definition File_create (now : Z) (kw : File.kwargs) : M File.t := λ db,
  match File.columns B now kw with
  | None => (db, Raise DatabaseError)
  | Some mk =>
      (set_files (insert mk (File_objects db)) db,
       Return (mk (next_id (File_objects db))))
  end.

(** [Utterance.objects.create] on the keyword arguments [kw] *)
Definition Utterance_create (kw : Utterance.kwargs) : M Utterance.t := λ db,
  match Utterance.columns B kw with
  | None => (db, Raise DatabaseError)
  | Some mk =>
      (set_utterances (insert mk (Utterance_objects db)) db,
       Return (mk (next_id (Utterance_objects db))))
  end.

(** ** apps/callytics/tasks.py *)

(** [metadata.get("topic_name") or result.get("topic")]: the right
    operand is evaluated only when the left one is falsy. *)
Definition topic_name (metadata : dict) (result : json) : outcome json :=
  let supplied := default JNull (metadata !! "topic_name") in
  if truthy supplied then Return supplied else get result "topic" JNull.

(** The arguments of [File.objects.create] in [run_callytics_pipeline],
    evaluated left to right. *)
Definition File_kwargs (topic : Topic.t) (audio_path : string) (result : json)
    : outcome File.kwargs :=
  name ← getitem result "name";
  extension ← getitem result "extension";
  rate ← getitem result "rate";
  bit_depth ← getitem result "bit_depth";
  channels ← getitem result "channels";
  duration ← getitem result "duration";
  min_freq ← getitem result "min_freq";
  max_freq ← getitem result "max_freq";
  rms_loud ← getitem result "rms_loud";
  zero_cross ← getitem result "zero_cross";
  spec_cent ← getitem result "spec_cent";
  spec_bw ← getitem result "spec_bw";
  spec_flat ← getitem result "spec_flat";
  rolloff ← getitem result "rolloff";
  chroma_stft ← getitem result "chroma_stft";
  spec_contr ← getitem result "spec_contr";
  tonnetz ← getitem result "tonnetz";
  mfcc ← getitem result "mfcc";
  summary ← get result "summary" (JStr "");
  conflict ← getitem result "conflict";
  silence ← getitem result "silence";
  mret {| File.kw_topic := topic; File.kw_name := name;
          File.kw_extension := extension; File.kw_path := audio_path;
          File.kw_rate := rate; File.kw_bit_depth := bit_depth;
          File.kw_channels := channels; File.kw_duration := duration;
          File.kw_min_freq := min_freq; File.kw_max_freq := max_freq;
          File.kw_rms_loud := rms_loud; File.kw_zero_cross := zero_cross;
          File.kw_spec_cent := spec_cent; File.kw_spec_bw := spec_bw;
          File.kw_spec_flat := spec_flat; File.kw_rolloff := rolloff;
          File.kw_chroma_stft := chroma_stft; File.kw_spec_contr := spec_contr;
          File.kw_tonnetz := tonnetz; File.kw_mfcc := mfcc;
          File.kw_summary := summary; File.kw_conflict := conflict;
          File.kw_silence := silence |}.

(** The arguments of [Utterance.objects.create] for one entry. *)
Definition Utterance_kwargs (file_obj : File.t) (utt : json)
    : outcome Utterance.kwargs :=
  speaker ← getitem utt "speaker";
  sequence ← getitem utt "sequence";
  start_time ← getitem utt "start_time";
  end_time ← getitem utt "end_time";
  content ← getitem utt "content";
  sentiment ← getitem utt "sentiment";
  profane ← getitem utt "profane";
  mret {| Utterance.kw_file := file_obj; Utterance.kw_speaker := speaker;
          Utterance.kw_sequence := sequence;
          Utterance.kw_start_time := start_time;
          Utterance.kw_end_time := end_time; Utterance.kw_content := content;
          Utterance.kw_sentiment := sentiment;
          Utterance.kw_profane := profane |}.

(** The entries of [result.get("utterances", [])], as the loop visits
    them. *)
Definition entries_of (result : json) : outcome (list json) :=
  get result "utterances" (JArr []) ≫= iter.

(** The body of the loop over the utterances. *)
Definition create_utterance (file_obj : File.t) (utt : json) : M () :=
  kw ← pure (Utterance_kwargs file_obj utt);
  _ ← Utterance_create kw;
  mret ().

(** Lines 33 to 77 of [run_callytics_pipeline]: what the task does with
    the document the service returned.  The specification calls it
    [SchemaStore.persist]. *)
Definition persist (now : Z) (audio_path : string) (metadata : dict)
    (result : json) : M Z :=
  topic_name ← pure (topic_name metadata result);
  '(topic, _) ← Topic_get_or_create topic_name;
  kw ← pure (File_kwargs topic audio_path result);
  file_obj ← File_create now kw;
  utterances ← pure (entries_of result);
  _ ← for_each (create_utterance file_obj) utterances;
  mret (File.id file_obj).
End ORM.

(** ** apps/callytics/clients.py *)

Record Response : Type := {
  status_code : Z;
  (** what the bytes the server sent after the headers parse to, [None]
      when they are no JSON *)
  body : option json;
}.

(** The statuses for which the HTTP client reads no body, whatever the
    server sent: 1xx, 204 and 304.  The content of such a response is
    empty. *)
Definition bodiless (status : Z) : bool :=
  ((100 <=? status) && (status <? 200)) || (status =? 204) || (status =? 304).

(** [resp.raise_for_status()]: a status from 400 to 599 raises. *)
Definition raise_for_status (resp : Response) : outcome () :=
  if (400 <=? status_code resp) && (status_code resp <? 600)
  then Raise (HTTPError (status_code resp))
  else Return ().

(** [resp.json()]: an empty content is no JSON. *)
Definition Response_json (resp : Response) : outcome json :=
  if bodiless (status_code resp) then Raise JSONDecodeError
  else match body resp with
       | Some v => Return v
       | None => Raise JSONDecodeError
       end.

(** What lies outside the process when the task runs: the file system, the
    Callytics server behind [requests.post] and the clock. *)
Record World : Type := {
  (** [open(path, "rb")]: the content, [None] when the file cannot be
      opened *)
  open_rb : string → option string;
  (** [requests.post(url, files=, data=, timeout=)]: the response, or the
      exception of a request that could not be sent or timed out *)
  requests_post : string → gmap string string → dict → Z → outcome Response;
  timezone_now : Z;
}.

Definition call_callytics (settings : Settings) (W : World)
    (audio_path : string) (metadata : dict) : outcome json :=
  match open_rb W audio_path with
  | None => Raise OSError
  | Some f =>
      let files : gmap string string := {[ "audio" := f ]} in
      let data : dict := {[ "metadata" := JObj metadata ]} in
      resp ← requests_post W (CALLYTICS_URL settings) files data 120;
      _ ← raise_for_status resp;
      Response_json resp
  end.

(** [run_callytics_pipeline], with the continuation after the call left
    as a parameter. *)
Definition pipeline (settings : Settings) (W : World) (audio_path : string)
    (metadata : dict) (store_result : json → M Z) : M Z :=
  result ← pure (call_callytics settings W audio_path metadata);
  store_result result.

Definition run_callytics_pipeline (B : Backend) (settings : Settings) (W : World)
    (audio_path : string) (metadata : dict) : M Z :=
  pipeline settings W audio_path metadata
    (persist B (timezone_now W) audio_path metadata).

(** ** apps/callytics/serializers.py and apps/callytics/views.py *)

(** A part of a multipart form: a text value or an uploaded file. *)
Inductive form_value : Type :=
| Text (s : string)
| Upload (filename : string) (content : string).

Module serializers.
(** [to_internal_value] of the field classes of the REST framework the
    serializer declares, [None] for a value the field rejects. *)
Record Fields : Type := {
  FileField : form_value → option (string * string);
  IntegerField : form_value → option Z;
  CharField : nat → form_value → option string;
}.
End serializers.

Definition lower_ascii (c : ascii) : ascii :=
  let n := nat_of_ascii c in
  if (65 <=? n)%nat && (n <=? 90)%nat then ascii_of_nat (n + 32) else c.

(** [str.lower], on the letters A to Z.  [validate_gender] compares the
    result with words made of the letters a, e, f, h, l, m, o, r and t, which
    no other character lowers to. *)
Fixpoint lower (s : string) : string :=
  match s with
  | EmptyString => EmptyString
  | String c s' => String (lower_ascii c) (lower s')
  end.

Module FileUploadSerializer.
Record validated_data : Type := {
  audio : string * string;
  user_id : Z;
  gender : string;
  age : Z;
}.

Definition validate_gender (value : string) : option string :=
  if bool_decide (lower value ∈ ["male"; "female"; "other"])
  then Some (lower value)
  else None.

(** [is_valid]: the four declared fields are required, each is converted
    by its class, [gender] then goes through [validate_gender]; the keys
    of the request that are not declared are ignored. *)
Definition is_valid (F : serializers.Fields) (data : gmap string form_value)
    : option validated_data :=
  audio ← (data !! "audio") ≫= serializers.FileField F;
  user_id ← (data !! "user_id") ≫= serializers.IntegerField F;
  gender ← (data !! "gender") ≫= serializers.CharField F 10;
  gender ← validate_gender gender;
  age ← (data !! "age") ≫= serializers.IntegerField F;
  Some {| audio := audio; user_id := user_id; gender := gender; age := age |}.
End FileUploadSerializer.

(** What [post] uses of the process around it.  The calls are taken to
    return: [post] below is the view on the path where the storage saves
    the file, [MEDIA_ROOT] is set and the broker takes the task.  When one
    of them raises, the view raises with it, having given no answer. *)
Record Host : Type := {
  uuid4_hex : string;
  (** [os.path.splitext(name)[1]] *)
  splitext_ext : string → string;
  (** [default_storage.save(name, content)]: the name the file was saved
      under *)
  storage_save : string → string * string → string;
  os_path_join : string → string → string;
}.

Record HttpResponse : Type := {
  status : Z;
  data : gmap string string;
}.

(** [FileUploadView.post]: the response, and the calls of
    [run_callytics_pipeline.delay] it made.  A request the serializer
    rejects is answered 400; the list of the rejected fields in the body of
    that answer is left out. *)
Definition post (F : serializers.Fields) (settings : Settings) (H : Host)
    (request_data : gmap string form_value)
    : HttpResponse * list (string * dict) :=
  match FileUploadSerializer.is_valid F request_data with
  | None => ({| status := 400; data := ∅ |}, [])
  | Some validated_data =>
      let audio_file := FileUploadSerializer.audio validated_data in
      let ext := splitext_ext H audio_file.1 in
      let filename := ("uploads/" +:+ uuid4_hex H +:+ ext)%string in
      let saved_path := storage_save H filename audio_file in
      let full_path := os_path_join H (MEDIA_ROOT settings) saved_path in
      let metadata : dict :=
        <["user_id" := JInt (FileUploadSerializer.user_id validated_data)]>
        (<["gender" := JStr (FileUploadSerializer.gender validated_data)]>
        (<["age" := JInt (FileUploadSerializer.age validated_data)]> ∅)) in
      ({| status := 202; data := {[ "status" := "processing" ]} |},
       [(full_path, metadata)])
  end.

(** ** apps/consultlytics/models.py *)

(** The tables of a consultation session.  No code of the repository writes
    them; what the module fixes is the constraints the database enforces
    on an INSERT: the primary key of [Session], the foreign key to it in
    every other table, [unique_together] on [EmotionScore] and the unique
    column behind each [OneToOneField]. *)
Module Consultlytics.

Module Session.
Record t : Type := {
  session_id : string;
  speech_count : Z;
  consulting_text : string;
  asr_segments : json;
  created_at : Z;
}.
End Session.

Module TopNoun.
Record t : Type := {
  session : string;
  nouns : json;
}.
End TopNoun.

Module EmotionScore.
Record t : Type := {
  session : string;
  actor : string;
  star1 : Q;
  star2 : Q;
  star3 : Q;
  star4 : Q;
  star5 : Q;
  avg_score : Q;
  label : string;
}.

(** [Meta.unique_together = ("session", "actor")] *)
Definition unique_together (r : t) : string * string := (session r, actor r).
End EmotionScore.

Module Category.
Record t : Type := {
  session : string;
  mid_category : string;
  content_category : string;
  mid_category_id : Z;
  result_label : string;
  label_id : Z;
}.
End Category.

Module ScriptMetric.
Record t : Type := {
  session : string;
  script_phrase_ratio : Q;
  honorific_ratio : Q;
  positive_word_ratio : Q;
  euphonious_word_ratio : Q;
  confirmation_ratio : Q;
  empathy_ratio : Q;
  apology_ratio : Q;
  request_ratio : Q;
  alternative_count : Z;
  conflict_flag : bool;
  manual_compliance_ratio : Q;
}.
End ScriptMetric.

Module ResultClassification.
Record t : Type := {
  session : string;
  label : string;
}.
End ResultClassification.

(** Every table but [Session] has Django's automatic [id]; a row is kept
    with it. *)
Record Db : Type := {
  Session_objects : list Session.t;
  TopNoun_objects : table (Z * TopNoun.t);
  EmotionScore_objects : table (Z * EmotionScore.t);
  Category_objects : table (Z * Category.t);
  ScriptMetric_objects : table (Z * ScriptMetric.t);
  ResultClassification_objects : table (Z * ResultClassification.t);
}.

Definition empty_db : Db :=
  {| Session_objects := []; TopNoun_objects := empty_table;
     EmotionScore_objects := empty_table; Category_objects := empty_table;
     ScriptMetric_objects := empty_table;
     ResultClassification_objects := empty_table |}.

(** The values a unique key takes in a table. *)
Definition keys {R K} (key : R → K) (t : table (Z * R)) : list K :=
  (λ row, key row.2) <$> rows t.

(** The foreign key to [Session] holds. *)
Definition session_exists (db : Db) (session : string) : bool :=
  bool_decide (session ∈ Session.session_id <$> Session_objects db).

(** The INSERT of [r] into a table with a foreign key to [Session] and,
    when [unique] is given, a unique key: the new table, or
    [IntegrityError]. *)
Definition checked_insert {R K} `{EqDecision K} (db : Db) (session : R → string)
    (unique : option (R → K)) (r : R) (t : table (Z * R))
    : outcome (table (Z * R)) :=
  if negb (session_exists db (session r)) then Raise IntegrityError
  else match unique with
       | Some key =>
           if bool_decide (key r ∈ keys key t) then Raise IntegrityError
           else Return (insert (λ id, (id, r)) t)
       | None => Return (insert (λ id, (id, r)) t)
       end.

Definition Session_create (r : Session.t) (db : Db) : Db * outcome () :=
  if bool_decide (Session.session_id r ∈ Session.session_id <$> Session_objects db)
  then (db, Raise IntegrityError)
  else ({| Session_objects := Session_objects db ++ [r];
           TopNoun_objects := TopNoun_objects db;
           EmotionScore_objects := EmotionScore_objects db;
           Category_objects := Category_objects db;
           ScriptMetric_objects := ScriptMetric_objects db;
           ResultClassification_objects := ResultClassification_objects db |},
        Return ()).

(** [ForeignKey(Session)]: no unique key. *)
Definition TopNoun_create (r : TopNoun.t) (db : Db) : Db * outcome () :=
  match checked_insert db TopNoun.session (@None (TopNoun.t → string)) r
          (TopNoun_objects db) with
  | Raise e => (db, Raise e)
  | Return t =>
      ({| Session_objects := Session_objects db;
          TopNoun_objects := t;
          EmotionScore_objects := EmotionScore_objects db;
          Category_objects := Category_objects db;
          ScriptMetric_objects := ScriptMetric_objects db;
          ResultClassification_objects := ResultClassification_objects db |},
       Return ())
  end.

(** [ForeignKey(Session)] and [unique_together]. *)
Definition EmotionScore_create (r : EmotionScore.t) (db : Db) : Db * outcome () :=
  match checked_insert db EmotionScore.session
          (Some EmotionScore.unique_together) r (EmotionScore_objects db) with
  | Raise e => (db, Raise e)
  | Return t =>
      ({| Session_objects := Session_objects db;
          TopNoun_objects := TopNoun_objects db;
          EmotionScore_objects := t;
          Category_objects := Category_objects db;
          ScriptMetric_objects := ScriptMetric_objects db;
          ResultClassification_objects := ResultClassification_objects db |},
       Return ())
  end.

(** [OneToOneField(Session)]: the column [session] is unique. *)
Definition Category_create (r : Category.t) (db : Db) : Db * outcome () :=
  match checked_insert db Category.session (Some Category.session) r
          (Category_objects db) with
  | Raise e => (db, Raise e)
  | Return t =>
      ({| Session_objects := Session_objects db;
          TopNoun_objects := TopNoun_objects db;
          EmotionScore_objects := EmotionScore_objects db;
          Category_objects := t;
          ScriptMetric_objects := ScriptMetric_objects db;
          ResultClassification_objects := ResultClassification_objects db |},
       Return ())
  end.

Definition ScriptMetric_create (r : ScriptMetric.t) (db : Db) : Db * outcome () :=
  match checked_insert db ScriptMetric.session (Some ScriptMetric.session) r
          (ScriptMetric_objects db) with
  | Raise e => (db, Raise e)
  | Return t =>
      ({| Session_objects := Session_objects db;
          TopNoun_objects := TopNoun_objects db;
          EmotionScore_objects := EmotionScore_objects db;
          Category_objects := Category_objects db;
          ScriptMetric_objects := t;
          ResultClassification_objects := ResultClassification_objects db |},
       Return ())
  end.

Definition ResultClassification_create (r : ResultClassification.t) (db : Db)
    : Db * outcome () :=
  match checked_insert db ResultClassification.session
          (Some ResultClassification.session) r
          (ResultClassification_objects db) with
  | Raise e => (db, Raise e)
  | Return t =>
      ({| Session_objects := Session_objects db;
          TopNoun_objects := TopNoun_objects db;
          EmotionScore_objects := EmotionScore_objects db;
          Category_objects := Category_objects db;
          ScriptMetric_objects := ScriptMetric_objects db;
          ResultClassification_objects := t |},
       Return ())
  end.

(** The INSERT statements a writer of the schema can issue, and a run of
    them in autocommit mode: a refused statement changes nothing and the
    next one is run. *)
Inductive statement : Type :=
| InsertSession (r : Session.t)
| InsertTopNoun (r : TopNoun.t)
| InsertEmotionScore (r : EmotionScore.t)
| InsertCategory (r : Category.t)
| InsertScriptMetric (r : ScriptMetric.t)
| InsertResultClassification (r : ResultClassification.t).

Definition execute (st : statement) (db : Db) : Db * outcome () :=
  match st with
  | InsertSession r => Session_create r db
  | InsertTopNoun r => TopNoun_create r db
  | InsertEmotionScore r => EmotionScore_create r db
  | InsertCategory r => Category_create r db
  | InsertScriptMetric r => ScriptMetric_create r db
  | InsertResultClassification r => ResultClassification_create r db
  end.

Definition run (sts : list statement) (db : Db) : Db :=
  foldl (λ db st, (execute st db).1) db sts.

(** What the declared constraints promise of a database. *)
Record consistent (db : Db) : Prop := {
  session_pk : NoDup (Session.session_id <$> Session_objects db);
  emotion_unique :
    NoDup (keys EmotionScore.unique_together (EmotionScore_objects db));
  category_unique : NoDup (keys Category.session (Category_objects db));
  script_unique : NoDup (keys ScriptMetric.session (ScriptMetric_objects db));
  result_unique :
    NoDup (keys ResultClassification.session (ResultClassification_objects db));
}.

End Consultlytics.

(** ** Vocabulary of the properties *)

(** The keys [run_callytics_pipeline] reads with [result[...]], in the
    order it reads them. *)
Definition required : list string :=
  ["name"; "extension"; "rate"; "bit_depth"; "channels"; "duration";
   "min_freq"; "max_freq"; "rms_loud"; "zero_cross"; "spec_cent"; "spec_bw";
   "spec_flat"; "rolloff"; "chroma_stft"; "spec_contr"; "tonnetz"; "mfcc";
   "conflict"; "silence"].

(** The required keys a document lacks. *)
Definition missing (doc : dict) : list string :=
  filter (λ key, doc !! key = None) required.

Section Rows.
Variable B : Backend.

(** The row [File.objects.create] inserts for a document: its arguments,
    then its columns. *)
Definition File_row (now : Z) (topic : Topic.t) (audio_path : string)
    (result : json) : outcome (Z → File.t) :=
  kw ← File_kwargs topic audio_path result;
  match File.columns B now kw with
  | Some mk => Return mk
  | None => Raise DatabaseError
  end.

(** The row [Utterance.objects.create] inserts for an entry. *)
Definition Utterance_row (file_obj : File.t) (utt : json)
    : outcome (Z → Utterance.t) :=
  kw ← Utterance_kwargs file_obj utt;
  match Utterance.columns B kw with
  | Some mk => Return mk
  | None => Raise DatabaseError
  end.

(** The rows of the entries the loop gets through, and the exception that
    stops it, if any. *)
Fixpoint Utterance_rows (file_obj : File.t) (entries : list json)
    : list (Z → Utterance.t) * option exn :=
  match entries with
  | [] => ([], None)
  | utt :: entries' =>
      match Utterance_row file_obj utt with
      | Raise e => ([], Some e)
      | Return mk =>
          let '(mks, stop) := Utterance_rows file_obj entries' in
          (mk :: mks, stop)
      end
  end.
End Rows.

(** Rows inserted one after the other take consecutive ids. *)
Definition numbered {R} (first : Z) (mks : list (Z → R)) : list R :=
  imap (λ i mk, mk (first + Z.of_nat i)) mks.

(** The ids of a table are distinct and below the next one. *)
Definition table_ok {R} (id : R → Z) (t : table R) : Prop :=
  NoDup (id <$> rows t) ∧ Forall (λ r, id r < next_id t) (rows t).

(** The invariant of the database of the Callytics application: ids are
    fresh, foreign keys point to rows, and no two topics share a name. *)
Record Store_ok (db : Store) : Prop := {
  topics_ok : table_ok Topic.id (Topic_objects db);
  files_ok : table_ok File.id (File_objects db);
  utterances_ok : table_ok Utterance.id (Utterance_objects db);
  topic_names : NoDup (Topic.name <$> rows (Topic_objects db));
  file_topic :
    Forall (λ f, File.topic_id f ∈ Topic.id <$> rows (Topic_objects db))
           (rows (File_objects db));
  utterance_file :
    Forall (λ u, Utterance.file_id u ∈ File.id <$> rows (File_objects db))
           (rows (Utterance_objects db));
}.


(** What a unique key on a table of a session means for [create]: a row
    whose key is taken is refused and the database stays as it is, the key
    of a row that was inserted is taken, and the keys in the table are
    distinct. *)
Definition unique_key {R K} (create : R → Consultlytics.Db → Consultlytics.Db * outcome ())
    (key : R → K) (objects : Consultlytics.Db → table (Z * R))
    (db : Consultlytics.Db) : Prop :=
  (∀ r, key r ∈ Consultlytics.keys key (objects db) →
        create r db = (db, Raise IntegrityError))
  ∧ (∀ r db1, create r db = (db1, Return ()) →
              key r ∈ Consultlytics.keys key (objects db1))
  ∧ NoDup (Consultlytics.keys key (objects db)).

(** ** Sample data *)

Definition hello : dict :=
  list_to_map
    [("speaker", JStr "agent"); ("sequence", JInt 1); ("start_time", JInt 0);
     ("end_time", JInt 160); ("content", JStr "hello");
     ("sentiment", JStr "neutral"); ("profane", JBool false)].

(** The document of the end-to-end scenario of the specification, without
    [topic] and [utterances]. *)
Definition call1_features : dict :=
  list_to_map
    [("name", JStr "call1"); ("extension", JStr ".wav"); ("rate", JInt 16000);
     ("bit_depth", JInt 16); ("channels", JInt 1); ("duration", JInt 48000);
     ("min_freq", JInt 80); ("max_freq", JInt 8000);
     ("rms_loud", JFloat (1 # 20)); ("zero_cross", JInt 1200);
     ("spec_cent", JInt 1500); ("spec_bw", JInt 900); ("spec_flat", JInt 3);
     ("rolloff", JInt 3000); ("chroma_stft", JArr [JFloat (1 # 2)]);
     ("spec_contr", JArr [JFloat (1 # 4)]); ("tonnetz", JArr [JInt 0]);
     ("mfcc", JArr [JInt (-200)]); ("conflict", JBool false);
     ("silence", JInt 1600)].

Definition call1 : dict :=
  <["topic" := JStr "billing"]>
  (<["utterances" := JArr [JObj hello]]> call1_features).

(** The metadata [FileUploadView.post] builds. *)
Definition upload_metadata : dict :=
  list_to_map [("user_id", JInt 1); ("gender", JStr "male"); ("age", JInt 30)].

Definition sample_settings : Settings :=
  {| HOP_LENGTH := None; CALLYTICS_URL := "http://callytics/predict";
     MEDIA_ROOT := "/media" |}.

(** [call1] with a second utterance that lacks its [speaker]. *)
Definition cut_short : dict :=
  <["utterances" := JArr [JObj hello; JObj (delete "speaker" hello)]]> call1.

(** [call1] without its [name]. *)
Definition nameless : dict := delete "name" call1.

(** The database after the task has stored [call1] in an empty one. *)
Definition after_call1 : Store :=
  (persist plain 7 "/media/uploads/a.wav" upload_metadata (JObj call1)
     empty_store).1.

(** A world in which the audio file is there and the Callytics server
    cannot be reached. *)
Definition unreachable : World :=
  {| open_rb _ := Some "RIFF"; requests_post _ _ _ _ := Raise RequestException;
     timezone_now := 7 |}.

(** A session and rows of its tables. *)
Definition session_a : Consultlytics.Session.t :=
  {| Consultlytics.Session.session_id := "a";
     Consultlytics.Session.speech_count := 2;
     Consultlytics.Session.consulting_text := "hello";
     Consultlytics.Session.asr_segments := JArr [];
     Consultlytics.Session.created_at := 7 |}.

Definition emotion (actor label : string) : Consultlytics.EmotionScore.t :=
  {| Consultlytics.EmotionScore.session := "a";
     Consultlytics.EmotionScore.actor := actor;
     Consultlytics.EmotionScore.star1 := 0;
     Consultlytics.EmotionScore.star2 := 0;
     Consultlytics.EmotionScore.star3 := 1 # 2;
     Consultlytics.EmotionScore.star4 := 1 # 2;
     Consultlytics.EmotionScore.star5 := 0;
     Consultlytics.EmotionScore.avg_score := 7 # 2;
     Consultlytics.EmotionScore.label := label |}.

Definition category (result_label : string) : Consultlytics.Category.t :=
  {| Consultlytics.Category.session := "a";
     Consultlytics.Category.mid_category := "billing";
     Consultlytics.Category.content_category := "refund";
     Consultlytics.Category.mid_category_id := 3;
     Consultlytics.Category.result_label := result_label;
     Consultlytics.Category.label_id := 1 |}.

Definition script_metric (alternative_count : Z) : Consultlytics.ScriptMetric.t :=
  {| Consultlytics.ScriptMetric.session := "a";
     Consultlytics.ScriptMetric.script_phrase_ratio := 1 # 2;
     Consultlytics.ScriptMetric.honorific_ratio := 1;
     Consultlytics.ScriptMetric.positive_word_ratio := 1 # 4;
     Consultlytics.ScriptMetric.euphonious_word_ratio := 0;
     Consultlytics.ScriptMetric.confirmation_ratio := 1 # 3;
     Consultlytics.ScriptMetric.empathy_ratio := 1 # 5;
     Consultlytics.ScriptMetric.apology_ratio := 0;
     Consultlytics.ScriptMetric.request_ratio := 0;
     Consultlytics.ScriptMetric.alternative_count := alternative_count;
     Consultlytics.ScriptMetric.conflict_flag := false;
     Consultlytics.ScriptMetric.manual_compliance_ratio := 1 |}.

Definition classification (label : string) : Consultlytics.ResultClassification.t :=
  {| Consultlytics.ResultClassification.session := "a";
     Consultlytics.ResultClassification.label := label |}.

(** One row in every table of session ["a"]. *)
Definition session_a_written : list Consultlytics.statement :=
  [Consultlytics.InsertSession session_a;
   Consultlytics.InsertEmotionScore (emotion "customer" "neutral");
   Consultlytics.InsertCategory (category "satisfied");
   Consultlytics.InsertScriptMetric (script_metric 1);
   Consultlytics.InsertResultClassification (classification "satisfied")].

(** Decimal digits, as the fields of a form carry a number. *)
Fixpoint digits (s : string) (acc : Z) : option Z :=
  match s with
  | EmptyString => Some acc
  | String c s' =>
      let n := Z.of_nat (nat_of_ascii c) in
      if (48 <=? n) && (n <=? 57) then digits s' (10 * acc + (n - 48)) else None
  end.

(** Fields that take an uploaded file, a string of digits and a text no
    longer than [max_length]. *)
Definition form_fields : serializers.Fields :=
  {| serializers.FileField v :=
       match v with Upload filename content => Some (filename, content) | _ => None end;
     serializers.IntegerField v :=
       match v with
       | Text (String c s) => digits (String c s) 0
       | _ => None
       end;
     serializers.CharField max_length v :=
       match v with
       | Text s => if decide (String.length s ≤ max_length)%nat then Some s else None
       | _ => None
       end |}.

Definition host : Host :=
  {| uuid4_hex := "0f0f"; splitext_ext _ := ".wav";
     storage_save name _ := name;
     os_path_join a b := (a +:+ "/" +:+ b)%string |}.

(** The request of the docstring of [FileUploadView]: it carries a
    [topic_name]. *)
Definition upload_request : gmap string form_value :=
  list_to_map
    [("audio", Upload "call1.wav" "RIFF"); ("user_id", Text "1");
     ("gender", Text "Male"); ("age", Text "30");
     ("topic_name", Text "billing")].

(** An utterance that ends before it starts, and [call1] with it as its
    only utterance, at the rate of [call1] and at a rate of zero. *)
Definition backwards : dict :=
  <["start_time" := JInt 160]> (<["end_time" := JInt 0]> hello).

Definition backwards_call : dict :=
  <["utterances" := JArr [JObj backwards]]> call1.

Definition zero_rate_call : dict :=
  <["rate" := JInt 0]> backwards_call.

(** ** The labels of the rows *)

(** [self.topic] of a File: the row of [Topic] the foreign key points
    to. *)
Definition File_topic (Topic_objects : table Topic.t) (self : File.t)
    : outcome Topic.t :=
  match filter (λ t, Topic.id t = File.topic_id self) (rows Topic_objects) with
  | t :: _ => Return t
  | [] => Raise DoesNotExist
  end.

(** [Topic.__str__] *)
Definition Topic_str (self : Topic.t) : string := Topic.name self.

(** [File.__str__]: the name, then the topic between parentheses. *)
Definition File_str (db : Store) (self : File.t) : outcome string :=
  topic ← File_topic (Topic_objects db) self;
  Return (File.name self +:+ " (" +:+ Topic_str topic +:+ ")")%string.

(** [Utterance.__str__]: the format string prints the file twice and
    nothing of the utterance; its closing parenthesis has no opening
    one. *)
Definition Utterance_str (db : Store) (self : Utterance.t) : outcome string :=
  file ← Utterance.file (File_objects db) self;
  label ← File_str db file;
  Return ("Utterance " +:+ label +:+ " of File " +:+ File.name file +:+ ")")%string.

(** [self.session] of a row of a session: the row of [Session] of that
    primary key. *)
Definition session_of (db : Consultlytics.Db) (session : string)
    : outcome Consultlytics.Session.t :=
  match filter (λ s, Consultlytics.Session.session_id s = session)
          (Consultlytics.Session_objects db) with
  | s :: _ => Return s
  | [] => Raise DoesNotExist
  end.

(** [Session.__str__] *)
Definition Session_str (self : Consultlytics.Session.t) : string :=
  ("Session " +:+ Consultlytics.Session.session_id self)%string.

(** [TopNoun.__str__] *)
Definition TopNoun_str (db : Consultlytics.Db) (self : Consultlytics.TopNoun.t)
    : outcome string :=
  session ← session_of db (Consultlytics.TopNoun.session self);
  Return ("Top Nouns for " +:+ Consultlytics.Session.session_id session)%string.

(** [EmotionScore.__str__] *)
Definition EmotionScore_str (db : Consultlytics.Db)
    (self : Consultlytics.EmotionScore.t) : outcome string :=
  session ← session_of db (Consultlytics.EmotionScore.session self);
  Return ("Emotion(" +:+ Consultlytics.EmotionScore.actor self +:+ ") @ "
          +:+ Consultlytics.Session.session_id session)%string.

(** [Category.__str__] *)
Definition Category_str (db : Consultlytics.Db) (self : Consultlytics.Category.t)
    : outcome string :=
  session ← session_of db (Consultlytics.Category.session self);
  Return ("Category @ " +:+ Consultlytics.Session.session_id session)%string.

(** [ScriptMetric.__str__] *)
Definition ScriptMetric_str (db : Consultlytics.Db)
    (self : Consultlytics.ScriptMetric.t) : outcome string :=
  session ← session_of db (Consultlytics.ScriptMetric.session self);
  Return ("ScriptMetric @ " +:+ Consultlytics.Session.session_id session)%string.

(** [ResultClassification.__str__] *)
Definition ResultClassification_str (db : Consultlytics.Db)
    (self : Consultlytics.ResultClassification.t) : outcome string :=
  session ← session_of db (Consultlytics.ResultClassification.session self);
  Return ("Result " +:+ Consultlytics.ResultClassification.label self +:+ " @ "
          +:+ Consultlytics.Session.session_id session)%string.

(** ** Further vocabulary *)

(** The keys the loop reads from an entry of [result.utterances], in the
    order it reads them. *)
Definition utterance_keys : list string :=
  ["speaker"; "sequence"; "start_time"; "end_time"; "content"; "sentiment";
   "profane"].

(** The keys of [keys] a dict lacks. *)
Definition lacking (keys : list string) (doc : dict) : list string :=
  filter (λ key, doc !! key = None) keys.

(** The column holds [x], which is what [field] stores for the value of
    [key] in [doc]. *)
Definition stores {A} (field : json → option A) (doc : dict) (key : string)
    (x : A) : Prop :=
  ∃ v, doc !! key = Some v ∧ field v = Some x.

Definition is_object (v : json) : bool :=
  match v with JObj _ => true | _ => false end.

Definition is_array (v : json) : bool :=
  match v with JArr _ => true | _ => false end.

(** Every column of the File row [f] holds what its field stores for the
    value of the key of the same name in [doc]; [summary] holds what the
    nullable column stores for the value of [summary], or for the empty
    string when the key is absent. *)
Definition File_holds (B : Backend) (doc : dict) (f : File.t) : Prop :=
  stores (CharField B 200) doc "name" (File.name f)
  ∧ stores (CharField B 10) doc "extension" (File.extension f)
  ∧ stores (IntegerField B) doc "rate" (File.rate f)
  ∧ stores (IntegerField B) doc "bit_depth" (File.bit_depth f)
  ∧ stores (IntegerField B) doc "channels" (File.channels f)
  ∧ stores (BigIntegerField B) doc "duration" (File.duration f)
  ∧ stores (IntegerField B) doc "min_freq" (File.min_freq f)
  ∧ stores (IntegerField B) doc "max_freq" (File.max_freq f)
  ∧ stores (FloatField B) doc "rms_loud" (File.rms_loud f)
  ∧ stores (BigIntegerField B) doc "zero_cross" (File.zero_cross f)
  ∧ stores (BigIntegerField B) doc "spec_cent" (File.spec_cent f)
  ∧ stores (BigIntegerField B) doc "spec_bw" (File.spec_bw f)
  ∧ stores (BigIntegerField B) doc "spec_flat" (File.spec_flat f)
  ∧ stores (BigIntegerField B) doc "rolloff" (File.rolloff f)
  ∧ stores (JSONField B) doc "chroma_stft" (File.chroma_stft f)
  ∧ stores (JSONField B) doc "spec_contr" (File.spec_contr f)
  ∧ stores (JSONField B) doc "tonnetz" (File.tonnetz f)
  ∧ stores (JSONField B) doc "mfcc" (File.mfcc f)
  ∧ stores (BooleanField B) doc "conflict" (File.conflict f)
  ∧ stores (BigIntegerField B) doc "silence" (File.silence f)
  ∧ nullable (TextField B) (default (JStr "") (doc !! "summary"))
    = Some (File.summary f).

(** The same for the Utterance row [u] and the entry [m]. *)
Definition Utterance_holds (B : Backend) (m : dict) (u : Utterance.t) : Prop :=
  stores (CharField B 10) m "speaker" (Utterance.speaker u)
  ∧ stores (IntegerField B) m "sequence" (Utterance.sequence u)
  ∧ stores (BigIntegerField B) m "start_time" (Utterance.start_time u)
  ∧ stores (BigIntegerField B) m "end_time" (Utterance.end_time u)
  ∧ stores (TextField B) m "content" (Utterance.content u)
  ∧ stores (CharField B 10) m "sentiment" (Utterance.sentiment u)
  ∧ stores (BooleanField B) m "profane" (Utterance.profane u).

(** A call of [run_callytics_pipeline.delay], with the world it will run
    in. *)
Record task : Type := {
  task_world : World;
  task_audio_path : string;
  task_metadata : dict;
}.

(** A worker that runs the tasks one after the other, whatever their
    outcome. *)
Definition run_tasks (B : Backend) (settings : Settings) (tasks : list task)
    (db : Store) : Store :=
  foldl (λ db t, (run_callytics_pipeline B settings (task_world t)
                    (task_audio_path t) (task_metadata t) db).1) db tasks.

(** The rows of the tables of a session point to sessions that exist. *)
Record references_ok (db : Consultlytics.Db) : Prop := {
  top_noun_session :
    Forall (λ row, Consultlytics.session_exists db (Consultlytics.TopNoun.session row.2) = true)
           (rows (Consultlytics.TopNoun_objects db));
  emotion_session :
    Forall (λ row, Consultlytics.session_exists db
                     (Consultlytics.EmotionScore.session row.2) = true)
           (rows (Consultlytics.EmotionScore_objects db));
  category_session :
    Forall (λ row, Consultlytics.session_exists db
                     (Consultlytics.Category.session row.2) = true)
           (rows (Consultlytics.Category_objects db));
  script_session :
    Forall (λ row, Consultlytics.session_exists db
                     (Consultlytics.ScriptMetric.session row.2) = true)
           (rows (Consultlytics.ScriptMetric_objects db));
  result_session :
    Forall (λ row, Consultlytics.session_exists db
                     (Consultlytics.ResultClassification.session row.2) = true)
           (rows (Consultlytics.ResultClassification_objects db));
}.

(** ** Further sample data *)

(** A world in which the server answers 300, a status that is neither a
    success nor an error for [raise_for_status], with the document
    [call1]. *)
Definition multiple_choices : World :=
  {| open_rb _ := Some "RIFF";
     requests_post _ _ _ _ :=
       Return {| status_code := 300; body := Some (JObj call1) |};
     timezone_now := 7 |}.

(** A reply to [hello], and [call1] with the two utterances. *)
Definition reply : dict :=
  list_to_map
    [("speaker", JStr "customer"); ("sequence", JInt 2);
     ("start_time", JInt 160); ("end_time", JInt 400); ("content", JStr "hi");
     ("sentiment", JStr "neutral"); ("profane", JBool false)].

Definition call2 : dict :=
  <["utterances" := JArr [JObj hello; JObj reply]]> call1.

(** The metadata of a caller that names the topic. *)
Definition named_metadata : dict :=
  <["topic_name" := JStr "billing"]> upload_metadata.

(** The database with the topic [billing] and nothing else. *)
Definition billing_only : Store :=
  set_topics
    (insert (λ id, {| Topic.id := id; Topic.name := "billing" |}) empty_table)
    empty_store.

(** A world in which the server answers 200 with [call1_features], which
    names no topic. *)
Definition no_topic_server : World :=
  {| open_rb _ := Some "RIFF";
     requests_post _ _ _ _ :=
       Return {| status_code := 200; body := Some (JObj call1_features) |};
     timezone_now := 7 |}.

(** The File row of [call1]. *)
Definition call1_file : File.t :=
  {| File.id := 1; File.name := "call1"; File.topic_id := 1;
     File.extension := ".wav"; File.path := "/media/uploads/a.wav";
     File.rate := 16000; File.bit_depth := 16; File.channels := 1;
     File.duration := 48000; File.min_freq := 80; File.max_freq := 8000;
     File.rms_loud := 1 # 20; File.zero_cross := 1200; File.spec_cent := 1500;
     File.spec_bw := 900; File.spec_flat := 3; File.rolloff := 3000;
     File.chroma_stft := JArr [JFloat (1 # 2)];
     File.spec_contr := JArr [JFloat (1 # 4)]; File.tonnetz := JArr [JInt 0];
     File.mfcc := JArr [JInt (-200)]; File.summary := Some ""%string;
     File.conflict := false; File.silence := 1600; File.created_at := 7 |}.

(** The Utterance row of [hello] in [call1], and a reply that starts where
    it ends. *)
Definition hello_row : Utterance.t :=
  {| Utterance.id := 1; Utterance.file_id := 1; Utterance.speaker := "agent";
     Utterance.sequence := 1; Utterance.start_time := 0;
     Utterance.end_time := 160; Utterance.content := "hello";
     Utterance.sentiment := "neutral"; Utterance.profane := false |}.

Definition reply_row : Utterance.t :=
  {| Utterance.id := 2; Utterance.file_id := 1; Utterance.speaker := "customer";
     Utterance.sequence := 2; Utterance.start_time := 160;
     Utterance.end_time := 400; Utterance.content := "hi";
     Utterance.sentiment := "neutral"; Utterance.profane := false |}.

(** A top-noun row of session ["a"]. *)
Definition top_noun : Consultlytics.TopNoun.t :=
  {| Consultlytics.TopNoun.session := "a";
     Consultlytics.TopNoun.nouns := JArr [JStr "refund"] |}.

(** * Properties *)

(** ** Tables *)

Lemma rows_insert_all {R} (mks : list (Z → R)) (t : table R) :
  rows (insert_all mks t) = rows t ++ numbered (next_id t) mks.
Proof.
  revert t. induction mks as [|mk mks IH]; intros t; simpl.
  - by rewrite app_nil_r.
  - unfold insert_all in *. simpl. rewrite IH. simpl.
    rewrite <- app_assoc. unfold numbered. simpl. do 2 f_equal.
    + f_equal. lia.
    + apply imap_ext. intros i mk' _. simpl. f_equal. lia.
Qed.

Lemma next_id_insert_all {R} (mks : list (Z → R)) (t : table R) :
  next_id (insert_all mks t) = next_id t + Z.of_nat (length mks).
Proof.
  revert t. induction mks as [|mk mks IH]; intros t; simpl; [lia|].
  unfold insert_all in *. simpl. rewrite IH. simpl. lia.
Qed.

Lemma length_numbered {R} (first : Z) (mks : list (Z → R)) :
  length (numbered first mks) = length mks.
Proof. unfold numbered. by rewrite length_imap. Qed.

Lemma numbered_lookup {R} (first : Z) (mks : list (Z → R)) (i : nat) :
  numbered first mks !! i = (λ mk, mk (first + Z.of_nat i)) <$> mks !! i.
Proof. unfold numbered. by rewrite list_lookup_imap. Qed.

(** ** The steps of [persist] *)

Lemma set_utterances_id (db : Store) : set_utterances (Utterance_objects db) db = db.
Proof. by destruct db. Qed.

Section Steps.
Variable B : Backend.

Lemma create_utterance_eq (f : File.t) (utt : json) (db : Store) :
  create_utterance B f utt db =
  match Utterance_row B f utt with
  | Raise e => (db, Raise e)
  | Return mk => (set_utterances (insert mk (Utterance_objects db)) db, Return ())
  end.
Proof.
  unfold create_utterance, Utterance_row, Utterance_create, pure, mbind, M_bind.
  destruct (Utterance_kwargs f utt) as [e|kw]; simpl; [done|].
  by destruct (Utterance.columns B kw).
Qed.

(** The loop inserts the rows of the entries before the first one that
    raises, and stops there. *)
Lemma for_each_create_utterance (f : File.t) (entries : list json) (db : Store) :
  for_each (create_utterance B f) entries db =
  (set_utterances (insert_all (Utterance_rows B f entries).1 (Utterance_objects db)) db,
   match (Utterance_rows B f entries).2 with
   | Some e => Raise e
   | None => Return ()
   end).
Proof.
  revert db. induction entries as [|utt entries IH]; intros db; simpl.
  - by rewrite set_utterances_id.
  - unfold mbind, M_bind. rewrite create_utterance_eq.
    destruct (Utterance_row B f utt) as [e|mk]; simpl.
    + by rewrite set_utterances_id.
    + rewrite IH. by destruct (Utterance_rows B f entries) as [mks stop].
Qed.

(** [persist], one step after the other. *)
Lemma persist_eq (now : Z) (audio_path : string) (metadata : dict)
    (result : json) (db : Store) :
  persist B now audio_path metadata result db =
  match topic_name metadata result with
  | Raise e => (db, Raise e)
  | Return name =>
      match Topic_get_or_create B name db with
      | (db1, Raise e) => (db1, Raise e)
      | (db1, Return (topic, _)) =>
          match File_row B now topic audio_path result with
          | Raise e => (db1, Raise e)
          | Return mk =>
              let file_obj := mk (next_id (File_objects db1)) in
              let db2 := set_files (insert mk (File_objects db1)) db1 in
              match entries_of result with
              | Raise e => (db2, Raise e)
              | Return entries =>
                  let '(mks, stop) := Utterance_rows B file_obj entries in
                  (set_utterances (insert_all mks (Utterance_objects db2)) db2,
                   match stop with
                   | Some e => Raise e
                   | None => Return (File.id file_obj)
                   end)
              end
          end
      end
  end.
Proof.
  unfold persist, pure, mbind at 1 2, M_bind.
  destruct (topic_name metadata result) as [e|name]; [done|].
  destruct (Topic_get_or_create B name db) as [db1 [e|[topic created]]]; [done|].
  unfold mbind at 1 2, M_bind, File_row, File_create.
  destruct (File_kwargs topic audio_path result) as [e|kw]; simpl; [done|].
  destruct (File.columns B now kw) as [mk|]; [|done].
  unfold mbind at 1 2, M_bind.
  destruct (entries_of result) as [e|entries]; [done|].
  unfold mbind, M_bind. rewrite for_each_create_utterance.
  destruct (Utterance_rows B (mk (next_id (File_objects db1))) entries)
    as [mks [e|]]; done.
Qed.
End Steps.

(** ** What the inserted rows hold *)

Ltac option_steps H :=
  repeat match type of H with
         | context [mbind _ ?o] =>
             let E := fresh "E" in
             destruct o eqn:E; simpl in H; [|discriminate H]
         end.

Ltac outcome_steps H :=
  repeat match type of H with
         | context [mbind _ ?o] =>
             let E := fresh "E" in
             destruct o eqn:E; simpl in H; [discriminate H|]
         end.

Section RowFacts.
Variable B : Backend.

Lemma File_columns_keys (now : Z) (kw : File.kwargs) (mk : Z → File.t) :
  File.columns B now kw = Some mk →
  ∀ id, File.id (mk id) = id
        ∧ File.topic_id (mk id) = Topic.id (File.kw_topic kw)
        ∧ TextField B (JStr (File.kw_path kw)) = Some (File.path (mk id))
        ∧ IntegerField B (File.kw_rate kw) = Some (File.rate (mk id))
        ∧ File.created_at (mk id) = now.
Proof.
  intros H id. unfold File.columns in H. option_steps H.
  injection H as <-. simpl. by rewrite ?E1, ?E2.
Qed.

Lemma File_kwargs_topic (topic : Topic.t) (audio_path : string) (result : json)
    (kw : File.kwargs) :
  File_kwargs topic audio_path result = Return kw →
  File.kw_topic kw = topic ∧ File.kw_path kw = audio_path
  ∧ getitem result "rate" = Return (File.kw_rate kw).
Proof.
  intros H. unfold File_kwargs in H. outcome_steps H.
  injection H as <-. simpl. by rewrite ?E1.
Qed.

Lemma File_row_keys (now : Z) (topic : Topic.t) (audio_path : string)
    (result : json) (mk : Z → File.t) :
  File_row B now topic audio_path result = Return mk →
  ∀ id, File.id (mk id) = id ∧ File.topic_id (mk id) = Topic.id topic
        ∧ TextField B (JStr audio_path) = Some (File.path (mk id))
        ∧ File.created_at (mk id) = now.
Proof.
  unfold File_row. intros H id.
  destruct (File_kwargs topic audio_path result) as [e|kw] eqn:Ekw; [done|].
  simpl in H. destruct (File.columns B now kw) as [mk'|] eqn:Ecol; [|done].
  injection H as ->.
  destruct (File_kwargs_topic _ _ _ _ Ekw) as (<- & <- & _).
  destruct (File_columns_keys _ _ _ Ecol id) as (? & ? & ? & _ & ?). done.
Qed.

Lemma Utterance_columns_keys (kw : Utterance.kwargs) (mk : Z → Utterance.t) :
  Utterance.columns B kw = Some mk →
  ∀ id, Utterance.id (mk id) = id
        ∧ Utterance.file_id (mk id) = File.id (Utterance.kw_file kw)
        ∧ BigIntegerField B (Utterance.kw_start_time kw)
          = Some (Utterance.start_time (mk id))
        ∧ BigIntegerField B (Utterance.kw_end_time kw)
          = Some (Utterance.end_time (mk id)).
Proof.
  intros H id. unfold Utterance.columns in H. option_steps H.
  injection H as <-. simpl. by rewrite ?E1, ?E2.
Qed.

Lemma Utterance_kwargs_file (f : File.t) (utt : json) (kw : Utterance.kwargs) :
  Utterance_kwargs f utt = Return kw →
  Utterance.kw_file kw = f
  ∧ getitem utt "start_time" = Return (Utterance.kw_start_time kw)
  ∧ getitem utt "end_time" = Return (Utterance.kw_end_time kw).
Proof.
  intros H. unfold Utterance_kwargs in H. outcome_steps H.
  injection H as <-. simpl. by rewrite ?E1, ?E2.
Qed.

Lemma Utterance_row_keys (f : File.t) (utt : json) (mk : Z → Utterance.t) :
  Utterance_row B f utt = Return mk →
  ∀ id, Utterance.id (mk id) = id ∧ Utterance.file_id (mk id) = File.id f.
Proof.
  unfold Utterance_row. intros H id.
  destruct (Utterance_kwargs f utt) as [e|kw] eqn:Ekw; [done|].
  simpl in H. destruct (Utterance.columns B kw) as [mk'|] eqn:Ecol; [|done].
  injection H as ->.
  destruct (Utterance_kwargs_file _ _ _ Ekw) as (<- & _).
  destruct (Utterance_columns_keys _ _ Ecol id) as (? & ? & _). done.
Qed.

(** The loop gets through a prefix of the entries: one row per entry of
    the prefix, in the order of the entries, and the entry after the
    prefix is the one that raises. *)
Lemma Utterance_rows_prefix (f : File.t) (entries : list json) :
  let '(mks, stop) := Utterance_rows B f entries in
  Forall2 (λ utt mk, Utterance_row B f utt = Return mk)
          (take (length mks) entries) mks
  ∧ match stop with
    | None => length mks = length entries
    | Some e => ∃ utt, entries !! length mks = Some utt
                       ∧ Utterance_row B f utt = Raise e
    end.
Proof.
  induction entries as [|utt entries IH]; simpl; [done|].
  destruct (Utterance_row B f utt) as [e|mk] eqn:E; simpl.
  - split; [constructor|]. by exists utt.
  - destruct (Utterance_rows B f entries) as [mks stop]. simpl.
    destruct IH as [IH1 IH2]. split; [by constructor|].
    destruct stop; [done|]. by rewrite IH2.
Qed.

Lemma Utterance_rows_keys (f : File.t) (entries : list json) :
  Forall (λ mk, ∀ id, Utterance.id (mk id) = id
                      ∧ Utterance.file_id (mk id) = File.id f)
         (Utterance_rows B f entries).1.
Proof.
  induction entries as [|utt entries IH]; simpl; [constructor|].
  destruct (Utterance_row B f utt) as [e|mk] eqn:E; simpl; [constructor|].
  destruct (Utterance_rows B f entries) as [mks stop]. simpl in *.
  constructor; [|done]. by apply Utterance_row_keys with utt.
Qed.
End RowFacts.

(** ** The invariant *)

Lemma table_ok_empty {R} (id : R → Z) : table_ok id empty_table.
Proof. split; simpl; constructor. Qed.

Lemma table_ok_insert {R} (id : R → Z) (mk : Z → R) (t : table R) :
  (∀ i, id (mk i) = i) → table_ok id t → table_ok id (insert mk t).
Proof.
  intros Hid [Hnodup Hlt]. split; simpl.
  - rewrite fmap_app. simpl. apply NoDup_app. split; [done|]. split.
    + intros x Hx Hin. apply list_elem_of_fmap in Hx as (r & -> & Hr).
      apply list_elem_of_singleton in Hin. rewrite Hid in Hin.
      rewrite Forall_forall in Hlt. specialize (Hlt r Hr). lia.
    + apply NoDup_singleton.
  - apply Forall_app. split.
    + eapply Forall_impl; [exact Hlt|]. simpl. intros. lia.
    + constructor; [|constructor]. rewrite Hid. lia.
Qed.

Lemma table_ok_insert_all {R} (id : R → Z) (mks : list (Z → R)) (t : table R) :
  Forall (λ mk, ∀ i, id (mk i) = i) mks → table_ok id t →
  table_ok id (insert_all mks t).
Proof.
  revert t. induction mks as [|mk mks IH]; intros t Hmks Hok; [done|].
  apply Forall_cons in Hmks as [Hmk Hmks].
  apply (IH (insert mk t)); [done|]. by apply table_ok_insert.
Qed.

Lemma Topic_filter_nil (name : string) (l : list Topic.t) :
  filter (λ t, Topic.name t = name) l = [] → name ∉ Topic.name <$> l.
Proof.
  intros Hnil Hin. apply list_elem_of_fmap in Hin as (t & -> & Ht).
  assert (t ∈ filter (λ t', Topic.name t' = Topic.name t) l) as Hf
    by by apply list_elem_of_filter.
  rewrite Hnil in Hf. by apply elem_of_nil in Hf.
Qed.

Lemma Topic_filter_cons (name : string) (l : list Topic.t) (t : Topic.t)
    (rest : list Topic.t) :
  filter (λ t, Topic.name t = name) l = t :: rest → t ∈ l ∧ Topic.name t = name.
Proof.
  intros Hf.
  assert (t ∈ filter (λ t, Topic.name t = name) l) as Hin by (rewrite Hf; left).
  apply list_elem_of_filter in Hin. tauto.
Qed.

Lemma Store_ok_empty : Store_ok empty_store.
Proof. split; simpl; try apply table_ok_empty; constructor. Qed.

Section Invariant.
Variable B : Backend.

(** What [get_or_create] returns and leaves behind. *)
Lemma Topic_get_or_create_cases (name : json) (db : Store) :
  match Topic_get_or_create B name db with
  | (db1, Raise e) => db1 = db
  | (db1, Return (topic, created)) =>
      Topic.name_column B name = Some (Topic.name topic)
      ∧ topic ∈ rows (Topic_objects db1)
      ∧ filter (λ t, Topic.name t = Topic.name topic) (rows (Topic_objects db1))
        = [topic]
      ∧ (if created
         then (Topic.name topic ∉ (Topic.name <$> rows (Topic_objects db)))
              ∧ Topic.id topic = next_id (Topic_objects db)
              ∧ db1 = set_topics (insert (λ id, {| Topic.id := id;
                                                 Topic.name := Topic.name topic |})
                                         (Topic_objects db)) db
         else db1 = db)
  end.
Proof.
  unfold Topic_get_or_create.
  destruct (Topic.name_column B name) as [n|]; [|done].
  destruct (filter _ _) as [|t [|t' rest]] eqn:Hf; [| |done].
  - simpl. split; [done|].
    split; [apply elem_of_app; right; left|].
    split; [|by auto using Topic_filter_nil].
    rewrite filter_app, Hf. simpl. rewrite filter_cons_True; done.
  - apply Topic_filter_cons in Hf as Hin. destruct Hin as [Hin <-].
    done.
Qed.

Lemma Topic_get_or_create_ok (name : json) (db db1 : Store)
    (out : outcome (Topic.t * bool)) :
  Store_ok db → Topic_get_or_create B name db = (db1, out) → Store_ok db1.
Proof.
  intros Hok Heq. pose proof (Topic_get_or_create_cases name db) as H.
  rewrite Heq in H. destruct out as [e|[topic [|]]]; [by subst| |by destruct H as (_&_&_&->)].
  destruct H as (_ & _ & _ & Hfresh & _ & ->). destruct Hok. split; simpl; try done.
  - by apply table_ok_insert.
  - rewrite fmap_app. simpl. apply NoDup_app. split; [done|]. split.
    + intros x Hx Hin. apply list_elem_of_singleton in Hin. by subst.
    + apply NoDup_singleton.
  - eapply Forall_impl; [done|]. simpl. intros f Hf.
    rewrite fmap_app. apply elem_of_app. by left.
Qed.

Lemma persist_ok (now : Z) (audio_path : string) (metadata : dict)
    (result : json) (db db' : Store) (out : outcome Z) :
  Store_ok db → persist B now audio_path metadata result db = (db', out) →
  Store_ok db'.
Proof.
  intros Hok. rewrite persist_eq.
  destruct (topic_name metadata result) as [e|name]; [by intros [= <- _]|].
  destruct (Topic_get_or_create B name db) as [db1 out1] eqn:Htopic.
  pose proof (Topic_get_or_create_ok _ _ _ _ Hok Htopic) as Hok1.
  pose proof (Topic_get_or_create_cases name db) as Hcases.
  rewrite Htopic in Hcases.
  destruct out1 as [e|[topic created]]; [by intros [= <- _]|].
  destruct Hcases as (_ & Htopic_in & _).
  destruct (File_row B now topic audio_path result) as [e|mk] eqn:Hrow;
    [by intros [= <- _]|].
  pose proof (File_row_keys _ _ _ _ _ _ Hrow) as Hkeys.
  assert (Store_ok (set_files (insert mk (File_objects db1)) db1)) as Hok2.
  { destruct Hok1. split; simpl; try done.
    - apply table_ok_insert; [|done]. intros i. by destruct (Hkeys i).
    - apply Forall_app. split; [done|]. constructor; [|constructor].
      destruct (Hkeys (next_id (File_objects db1))) as (_ & -> & _).
      by apply list_elem_of_fmap_2.
    - eapply Forall_impl; [done|]. simpl. intros u Hu.
      rewrite fmap_app. apply elem_of_app. by left. }
  simpl. destruct (entries_of result) as [e|entries]; [by intros [= <- _]|].
  pose proof (Utterance_rows_keys B (mk (next_id (File_objects db1))) entries)
    as Hukeys.
  destruct (Utterance_rows B _ entries) as [mks stop]. simpl in Hukeys.
  intros [= <- _]. destruct Hok2. split; simpl in *; try done.
  - apply table_ok_insert_all; [|done].
    eapply Forall_impl; [exact Hukeys|]. simpl. intros mk' H i. by destruct (H i).
  - rewrite rows_insert_all. apply Forall_app. split; [done|].
    apply Forall_forall. intros u Hu.
    apply list_elem_of_lookup in Hu as [i Hi]. rewrite numbered_lookup in Hi.
    destruct (mks !! i) as [mk'|] eqn:Hmk; [|done]. injection Hi as <-.
    rewrite Forall_forall in Hukeys.
    destruct (Hukeys mk' (list_elem_of_lookup_2 _ _ _ Hmk)
                (next_id (Utterance_objects db1) + Z.of_nat i)) as [_ ->].
    destruct (Hkeys (next_id (File_objects db1))) as (-> & _).
    rewrite fmap_app. apply elem_of_app. right. simpl.
    destruct (Hkeys (next_id (File_objects db1))) as (Hid & _).
    rewrite Hid. left.
Qed.
End Invariant.

(** ** Partial failure *)

(** C1, counterexample: the second utterance of [cut_short] lacks a key;
    [persist] raises there, and the File row and the first Utterance row
    it had inserted are in the database afterwards. *)
Lemma persist_leaves_file_behind :
  let run := persist plain 7 "/media/uploads/a.wav" upload_metadata
               (JObj cut_short) empty_store in
  run.2 = Raise (KeyError "speaker")
  ∧ File.name <$> rows (File_objects run.1) = ["call1"]
  ∧ Utterance.content <$> rows (Utterance_objects run.1) = ["hello"]
  ∧ entries_of (JObj cut_short)
    = Return [JObj hello; JObj (delete "speaker" hello)].
Proof. vm_compute. repeat split; reflexivity. Qed.

(** C1, amended: when [persist] has inserted the File row and the loop
    over [result.utterances] stops with an exception, the exception is the
    outcome of [persist], and the File row stays in the database together
    with one Utterance row, linked to it, for each entry before the one
    that raised.  Every insert is committed on its own; nothing is rolled
    back. *)
Theorem persist_failure_keeps_rows (B : Backend) (now : Z) (audio_path : string)
    (metadata : dict) (result : json) (db db1 : Store) (name : json)
    (topic : Topic.t) (created : bool) (mk : Z → File.t) (entries : list json)
    (mks : list (Z → Utterance.t)) (e : exn) :
  topic_name metadata result = Return name →
  Topic_get_or_create B name db = (db1, Return (topic, created)) →
  File_row B now topic audio_path result = Return mk →
  entries_of result = Return entries →
  Utterance_rows B (mk (next_id (File_objects db))) entries = (mks, Some e) →
  let file_obj := mk (next_id (File_objects db)) in
  let us := numbered (next_id (Utterance_objects db)) mks in
  ∃ db', persist B now audio_path metadata result db = (db', Raise e)
         ∧ rows (File_objects db') = rows (File_objects db) ++ [file_obj]
         ∧ rows (Utterance_objects db') = rows (Utterance_objects db) ++ us
         ∧ Forall (λ u, Utterance.file_id u = File.id file_obj) us
         ∧ (length us < length entries)%nat
         ∧ Forall2 (λ utt u, ∃ mk', Utterance_row B file_obj utt = Return mk'
                                    ∧ u = mk' (Utterance.id u))
                   (take (length us) entries) us
         ∧ ∃ utt, entries !! length us = Some utt
                  ∧ Utterance_row B file_obj utt = Raise e.
Proof.
  intros Hname Htopic Hrow Hentries Hloop file_obj us.
  pose proof (Topic_get_or_create_cases B name db) as Hcases.
  rewrite Htopic in Hcases.
  assert (File_objects db1 = File_objects db
          ∧ Utterance_objects db1 = Utterance_objects db) as [Hf Hu].
  { destruct Hcases as (_ & _ & _ & Hc). destruct created.
    - by destruct Hc as (_ & _ & ->).
    - by subst. }
  eexists. rewrite persist_eq, Hname, Htopic, Hrow, Hentries. cbv zeta.
  rewrite Hf, Hloop. split; [reflexivity|]. simpl.
  rewrite rows_insert_all. simpl. rewrite Hu.
  pose proof (Utterance_rows_keys B file_obj entries) as Hkeys.
  pose proof (Utterance_rows_prefix B file_obj entries) as Hprefix.
  fold file_obj in Hloop. rewrite Hloop in Hkeys, Hprefix. simpl in Hkeys.
  destruct Hprefix as [Hrows (utt & Hutt & Hraise)].
  assert (length us = length mks) as Hlen by apply length_numbered.
  split; [done|]. split; [done|]. split; [|split; [|split]].
  - apply Forall_forall. intros u Hin.
    apply list_elem_of_lookup in Hin as [i Hi]. unfold us in Hi.
    rewrite numbered_lookup in Hi.
    destruct (mks !! i) as [mk'|] eqn:Hmk; [|done]. injection Hi as <-.
    rewrite Forall_forall in Hkeys.
    by destruct (Hkeys mk' (list_elem_of_lookup_2 _ _ _ Hmk)
                   (next_id (Utterance_objects db) + Z.of_nat i)).
  - rewrite Hlen. by apply lookup_lt_Some in Hutt.
  - rewrite Hlen. apply Forall2_same_length_lookup. split.
    + rewrite Hlen. by apply Forall2_length in Hrows.
    + intros i utt' u Hi Hu'. unfold us in Hu'. rewrite numbered_lookup in Hu'.
      destruct (mks !! i) as [mk'|] eqn:Hmk; [|done]. injection Hu' as <-.
      exists mk'. split.
      * by eapply Forall2_lookup_lr in Hrows.
      * rewrite Forall_forall in Hkeys.
        destruct (Hkeys mk' (list_elem_of_lookup_2 _ _ _ Hmk)
                    (next_id (Utterance_objects db) + Z.of_nat i)) as [-> _].
        done.
  - rewrite Hlen. by exists utt.
Qed.

Lemma persist_failure_keeps_rows_witness :
  ∃ db', persist plain 7 "/media/uploads/a.wav" upload_metadata (JObj cut_short)
           empty_store = (db', Raise (KeyError "speaker"))
         ∧ length (rows (File_objects db')) = 1%nat
         ∧ length (rows (Utterance_objects db')) = 1%nat.
Proof.
  edestruct (persist_failure_keeps_rows plain 7 "/media/uploads/a.wav"
               upload_metadata (JObj cut_short) empty_store)
    as (db' & Hrun & Hfiles & Hutts & _).
  - vm_compute. reflexivity.
  - vm_compute. reflexivity.
  - vm_compute. reflexivity.
  - vm_compute. reflexivity.
  - vm_compute. reflexivity.
  - exists db'. split; [exact Hrun|]. rewrite Hfiles, Hutts. split; reflexivity.
Defined.

(** ** Required keys *)

Lemma getitem_JObj (doc : dict) (key : string) :
  getitem (JObj doc) key
  = match doc !! key with Some x => Return x | None => Raise (KeyError key) end.
Proof. reflexivity. Qed.

Lemma get_JObj (doc : dict) (key : string) (dflt : json) :
  get (JObj doc) key dflt = Return (default dflt (doc !! key)).
Proof. reflexivity. Qed.

Lemma bind_Return {A C} (a : A) (f : A → outcome C) : Return a ≫= f = f a.
Proof. reflexivity. Qed.

(** One [result[key]] of [File_kwargs], against the head of the list of
    required keys in [H]. *)
Ltac next_key doc H :=
  try (rewrite get_JObj, bind_Return; cbv beta);
  match type of H with
  | filter _ (?key :: _) = _ =>
      rewrite filter_cons in H; rewrite (getitem_JObj doc key);
      destruct (doc !! key) eqn:?;
      [rewrite decide_False in H by done; rewrite bind_Return; cbv beta
      |rewrite decide_True in H by done]
  end.

(** The first required key a document lacks is the [KeyError] of
    [File_kwargs]. *)
Lemma File_kwargs_first_missing (topic : Topic.t) (audio_path : string)
    (doc : dict) (key : string) (rest : list string) :
  missing doc = key :: rest →
  File_kwargs topic audio_path (JObj doc) = Raise (KeyError key).
Proof.
  intros H. unfold missing, required in H. unfold File_kwargs.
  do 20 (next_key doc H; [|by injection H as <- _]).
  by rewrite filter_nil in H.
Qed.

(** A document with every required key has its arguments evaluated. *)
Lemma File_kwargs_present (topic : Topic.t) (audio_path : string) (doc : dict) :
  missing doc = [] →
  ∃ kw, File_kwargs topic audio_path (JObj doc) = Return kw.
Proof.
  intros H. unfold missing, required in H. unfold File_kwargs.
  do 20 (next_key doc H; [|discriminate H]).
  by eexists.
Qed.

(** ** A missing required field *)

(** C3, counterexample: [call1_features] without its [name] lacks a
    required field, and it has no [topic]; with the metadata of an upload
    no topic name is found, and [persist] raises on the Topic before it
    reads [name]: the failure is not a [KeyError]. *)
Lemma missing_field_without_topic :
  missing (delete "name" call1_features) = ["name"]
  ∧ persist plain 7 "/media/uploads/a.wav" upload_metadata
      (JObj (delete "name" call1_features)) empty_store
    = (empty_store, Raise DatabaseError).
Proof. vm_compute. split; reflexivity. Qed.

(** C3, amended: for a document that lacks a required field, [persist]
    raises and inserts no File row and no Utterance row; when the Topic
    was found or created, the exception is the [KeyError] of the first
    missing field, in the order the task reads them, and no field is given
    a default. *)
Theorem persist_missing_field (B : Backend) (now : Z) (audio_path : string)
    (metadata : dict) (doc : dict) (db : Store) (key : string)
    (rest : list string) :
  missing doc = key :: rest →
  ∃ db' e,
    persist B now audio_path metadata (JObj doc) db = (db', Raise e)
    ∧ File_objects db' = File_objects db
    ∧ Utterance_objects db' = Utterance_objects db
    ∧ ∀ name db1 topic created,
        topic_name metadata (JObj doc) = Return name →
        Topic_get_or_create B name db = (db1, Return (topic, created)) →
        e = KeyError key ∧ db' = db1.
Proof.
  intros Hmissing. rewrite persist_eq.
  destruct (topic_name metadata (JObj doc)) as [e|name].
  { exists db, e. by repeat split. }
  pose proof (Topic_get_or_create_cases B name db) as Hcases.
  destruct (Topic_get_or_create B name db) as [db1 [e|[topic created]]] eqn:Htopic.
  { subst db1. exists db, e. split; [done|]. split; [done|]. split; [done|].
    intros name' db1 topic created [= <-] Htopic'. congruence. }
  unfold File_row. rewrite (File_kwargs_first_missing _ _ _ _ _ Hmissing).
  exists db1, (KeyError key). simpl.
  assert (File_objects db1 = File_objects db
          ∧ Utterance_objects db1 = Utterance_objects db) as [-> ->].
  { destruct Hcases as (_ & _ & _ & Hc). destruct created.
    - by destruct Hc as (_ & _ & ->).
    - by subst. }
  split; [done|]. split; [done|]. split; [done|].
  intros name' db1' topic' created' [= <-] Htopic'. split; [done|]. congruence.
Qed.

Lemma persist_missing_field_witness :
  ∃ db', persist plain 7 "/media/uploads/a.wav" upload_metadata (JObj nameless)
           empty_store = (db', Raise (KeyError "name"))
         ∧ File_objects db' = empty_table.
Proof.
  destruct (persist_missing_field plain 7 "/media/uploads/a.wav" upload_metadata
              nameless empty_store "name" [])
    as (db' & e & Hrun & Hfiles & _ & Hkey).
  - vm_compute. reflexivity.
  - edestruct Hkey as [-> _].
    + vm_compute. reflexivity.
    + vm_compute. reflexivity.
    + exists db'. split; [exact Hrun|exact Hfiles].
Defined.

(** ** A run of [persist] that returns *)

Section Runs.
Variable B : Backend.

(** The Topic step touches no other table. *)
Lemma Topic_get_or_create_frame (name : json) (db db1 : Store)
    (out : outcome (Topic.t * bool)) :
  Topic_get_or_create B name db = (db1, out) →
  File_objects db1 = File_objects db
  ∧ Utterance_objects db1 = Utterance_objects db.
Proof.
  unfold Topic_get_or_create.
  destruct (Topic.name_column B name) as [n|]; [|by intros [= <- _]].
  destruct (filter _ _) as [|t [|t' rest]]; by intros [= <- _].
Qed.

(** Two rows of one name are found only where names repeat. *)
Lemma filter_name_NoDup (n : string) (l : list Topic.t) (t t' : Topic.t)
    (rest : list Topic.t) :
  NoDup (Topic.name <$> l) →
  filter (λ t, Topic.name t = n) l ≠ t :: t' :: rest.
Proof.
  induction l as [|x l IH]; intros Hnodup Hf; [done|].
  rewrite fmap_cons in Hnodup. apply NoDup_cons in Hnodup as [Hx Hnodup].
  rewrite filter_cons in Hf. destruct (decide (Topic.name x = n)) as [Hn|Hn].
  - injection Hf as -> Hf. apply Hx.
    assert (t' ∈ filter (λ t, Topic.name t = n) l) as Hin by (rewrite Hf; left).
    apply list_elem_of_filter in Hin as [<- Hin]. rewrite Hn.
    by apply list_elem_of_fmap_2.
  - by apply IH.
Qed.

(** With distinct names in the table, a name the column takes is found or
    created. *)
Lemma Topic_get_or_create_returns (name : json) (n : string) (db : Store) :
  Topic.name_column B name = Some n →
  NoDup (Topic.name <$> rows (Topic_objects db)) →
  ∃ db1 topic created,
    Topic_get_or_create B name db = (db1, Return (topic, created))
    ∧ Topic.name topic = n.
Proof.
  intros Hn Hnodup. unfold Topic_get_or_create. rewrite Hn.
  destruct (filter _ _) as [|t [|t' rest]] eqn:Hf.
  - by eexists _, _, _.
  - apply Topic_filter_cons in Hf as Hin. destruct Hin as [_ Hname].
    by eexists _, _, _.
  - by apply filter_name_NoDup in Hf.
Qed.

(** A name the column takes and at most one row bears is found or
    created, whatever the other rows are called. *)
Lemma Topic_get_or_create_at_most_one (name : json) (n : string) (db : Store) :
  Topic.name_column B name = Some n →
  (length (filter (λ t, Topic.name t = n) (rows (Topic_objects db))) ≤ 1)%nat →
  ∃ db1 topic created,
    Topic_get_or_create B name db = (db1, Return (topic, created))
    ∧ Topic.name topic = n.
Proof.
  intros Hn Hone. unfold Topic_get_or_create. rewrite Hn.
  destruct (filter _ _) as [|t [|t' rest]] eqn:Hf.
  - by eexists _, _, _.
  - apply Topic_filter_cons in Hf as Hin. destruct Hin as [_ Hname].
    by eexists _, _, _.
  - simpl in Hone. lia.
Qed.

(** The entries the loop visits when [utterances] is a list, or is
    absent. *)
Lemma entries_of_list (doc : dict) (entries : list json) :
  doc !! "utterances" = Some (JArr entries)
  ∨ doc !! "utterances" = None ∧ entries = [] →
  entries_of (JObj doc) = Return entries.
Proof.
  unfold entries_of. rewrite get_JObj.
  by intros [-> | [-> ->]]; rewrite bind_Return.
Qed.

Lemma Utterance_rows_all (f : File.t) (entries : list json) :
  Forall (λ utt, ∃ mk, Utterance_row B f utt = Return mk) entries →
  (Utterance_rows B f entries).2 = None.
Proof.
  induction 1 as [|utt entries [mk Hmk] _ IH]; simpl; [done|].
  rewrite Hmk. by destruct (Utterance_rows B f entries).
Qed.

(** What a run that gets through every step returns and leaves behind. *)
Lemma persist_run (now : Z) (audio_path : string) (metadata : dict)
    (result : json) (db db1 : Store) (name : json) (topic : Topic.t)
    (created : bool) (mk : Z → File.t) (entries : list json)
    (mks : list (Z → Utterance.t)) :
  topic_name metadata result = Return name →
  Topic_get_or_create B name db = (db1, Return (topic, created)) →
  File_row B now topic audio_path result = Return mk →
  entries_of result = Return entries →
  Utterance_rows B (mk (next_id (File_objects db))) entries = (mks, None) →
  persist B now audio_path metadata result db
  = (set_utterances (insert_all mks (Utterance_objects db))
       (set_files (insert mk (File_objects db)) db1),
     Return (next_id (File_objects db))).
Proof.
  intros Hname Htopic Hrow Hentries Hloop.
  destruct (Topic_get_or_create_frame _ _ _ _ Htopic) as [Hf Hu].
  rewrite persist_eq, Hname, Htopic, Hrow, Hentries. cbv zeta.
  rewrite Hf, Hloop. simpl. rewrite Hu.
  by destruct (File_row_keys B _ _ _ _ _ Hrow (next_id (File_objects db))) as [-> _].
Qed.

(** The steps behind a run that returned. *)
Lemma persist_Return_inv (now : Z) (audio_path : string) (metadata : dict)
    (result : json) (db db' : Store) (file_id : Z) :
  persist B now audio_path metadata result db = (db', Return file_id) →
  ∃ name db1 topic created mk entries mks,
    topic_name metadata result = Return name
    ∧ Topic_get_or_create B name db = (db1, Return (topic, created))
    ∧ File_row B now topic audio_path result = Return mk
    ∧ entries_of result = Return entries
    ∧ Utterance_rows B (mk (next_id (File_objects db))) entries = (mks, None)
    ∧ db' = set_utterances (insert_all mks (Utterance_objects db))
              (set_files (insert mk (File_objects db)) db1)
    ∧ file_id = next_id (File_objects db).
Proof.
  rewrite persist_eq.
  destruct (topic_name metadata result) as [e|name] eqn:Hname; [done|].
  destruct (Topic_get_or_create B name db) as [db1 [e|[topic created]]] eqn:Htopic;
    [done|].
  destruct (Topic_get_or_create_frame _ _ _ _ Htopic) as [Hf Hu].
  destruct (File_row B now topic audio_path result) as [e|mk] eqn:Hrow; [done|].
  cbv zeta. destruct (entries_of result) as [e|entries] eqn:Hentries; [done|].
  rewrite Hf.
  destruct (Utterance_rows B (mk (next_id (File_objects db))) entries)
    as [mks [e|]] eqn:Hloop; [done|].
  simpl. rewrite Hu. intros [= <- <-].
  exists name, db1, topic, created, mk, entries, mks.
  by destruct (File_row_keys B _ _ _ _ _ Hrow (next_id (File_objects db))) as [-> _].
Qed.

(** The Utterance rows of a run: one per entry, in the order of the
    entries, with consecutive ids, all linked to the new File. *)
Lemma numbered_Utterance_rows (f : File.t) (entries : list json)
    (mks : list (Z → Utterance.t)) (first : Z) :
  Utterance_rows B f entries = (mks, None) →
  let us := numbered first mks in
  length us = length entries
  ∧ Forall (λ u, Utterance.file_id u = File.id f) us
  ∧ Forall2 (λ utt u, ∃ mk, Utterance_row B f utt = Return mk
                            ∧ u = mk (Utterance.id u)) entries us
  ∧ ∀ i u, us !! i = Some u → Utterance.id u = first + Z.of_nat i.
Proof.
  intros Hloop us.
  pose proof (Utterance_rows_keys B f entries) as Hkeys.
  pose proof (Utterance_rows_prefix B f entries) as Hprefix.
  rewrite Hloop in Hkeys, Hprefix. simpl in Hkeys. destruct Hprefix as [Hrows Hlen].
  rewrite Hlen, firstn_all in Hrows. rewrite Forall_forall in Hkeys.
  assert (∀ i u, us !! i = Some u →
            ∃ mk, mks !! i = Some mk ∧ u = mk (first + Z.of_nat i)
                  ∧ Utterance.id u = first + Z.of_nat i
                  ∧ Utterance.file_id u = File.id f) as Hrow.
  { intros i u Hi. unfold us in Hi. rewrite numbered_lookup in Hi.
    destruct (mks !! i) as [mk|] eqn:Hmk; [|done]. injection Hi as <-.
    exists mk. destruct (Hkeys mk (list_elem_of_lookup_2 _ _ _ Hmk)
                          (first + Z.of_nat i)) as [-> ->]. done. }
  assert (length us = length mks) as Hus by apply length_numbered.
  split; [congruence|]. split; [|split].
  - apply Forall_forall. intros u Hin. apply list_elem_of_lookup in Hin as [i Hi].
    by destruct (Hrow i u Hi) as (mk & _ & _ & _ & ?).
  - apply Forall2_same_length_lookup. split; [congruence|].
    intros i utt u Hutt Hu. destruct (Hrow i u Hu) as (mk & Hmk & Heq & Hid & _).
    exists mk. split; [by eapply Forall2_lookup_lr in Hrows|]. by rewrite Hid.
  - intros i u Hu. by destruct (Hrow i u Hu) as (mk & _ & _ & ? & _).
Qed.
End Runs.

(** ** A valid document *)

(** C2, counterexample: [call1_features] has every required field, and
    neither it nor the metadata of an upload names a topic; the Topic
    column refuses [None], and [persist] creates no File row. *)
Lemma persist_without_topic_fails :
  missing call1_features = []
  ∧ persist plain 7 "/media/uploads/a.wav" upload_metadata
      (JObj call1_features) empty_store
    = (empty_store, Raise DatabaseError).
Proof. vm_compute. split; reflexivity. Qed.

(** C2, amended: for a document with every required field, a topic name
    the Topic column takes (so not [None]) and at most one Topic row bears,
    values the File columns take, and a list [result.utterances] of entries
    that have their seven keys with values the Utterance columns take,
    [persist] returns the id of one new File row and inserts one Utterance
    row per entry of [result.utterances], none when the key is absent;
    every such row is linked to the new File, and the rows follow the order
    of the entries, with increasing ids. *)
Theorem persist_valid_document (B : Backend) (now : Z) (audio_path : string)
    (metadata : dict) (doc : dict) (db : Store) (name : json) (n : string)
    (entries : list json) :
  missing doc = [] →
  (∀ topic, File_row B now topic audio_path (JObj doc) ≠ Raise DatabaseError) →
  doc !! "utterances" = Some (JArr entries)
  ∨ doc !! "utterances" = None ∧ entries = [] →
  (∀ f, Forall (λ utt, ∃ mk, Utterance_row B f utt = Return mk) entries) →
  topic_name metadata (JObj doc) = Return name →
  Topic.name_column B name = Some n →
  (length (filter (λ t, Topic.name t = n) (rows (Topic_objects db))) ≤ 1)%nat →
  ∃ db' f us,
    persist B now audio_path metadata (JObj doc) db = (db', Return (File.id f))
    ∧ rows (File_objects db') = rows (File_objects db) ++ [f]
    ∧ rows (Utterance_objects db') = rows (Utterance_objects db) ++ us
    ∧ length us = length entries
    ∧ (doc !! "utterances" = None → us = [])
    ∧ Forall (λ u, Utterance.file_id u = File.id f) us
    ∧ Forall2 (λ utt u, ∃ mk, Utterance_row B f utt = Return mk
                              ∧ u = mk (Utterance.id u)) entries us
    ∧ ∀ i u, us !! i = Some u →
             Utterance.id u = next_id (Utterance_objects db) + Z.of_nat i.
Proof.
  intros Hpresent Hfit Hlist Hutts Hname Hcolumn Hone.
  pose proof (entries_of_list doc entries Hlist) as Hentries.
  destruct (Topic_get_or_create_at_most_one B name n db Hcolumn Hone)
    as (db1 & topic & created & Htopic & _).
  destruct (Topic_get_or_create_frame _ _ _ _ _ Htopic) as [Hf Hu].
  assert (∃ mk, File_row B now topic audio_path (JObj doc) = Return mk)
    as [mk Hrow].
  { specialize (Hfit topic). unfold File_row in *.
    destruct (File_kwargs_present topic audio_path doc Hpresent) as [kw Hkw].
    rewrite Hkw in *. rewrite bind_Return in *.
    destruct (File.columns B now kw) as [mk|]; [by exists mk|done]. }
  set (f := mk (next_id (File_objects db))).
  destruct (Utterance_rows B f entries) as [mks stop] eqn:Hloop.
  pose proof (Utterance_rows_all B f entries (Hutts f)) as Hstop.
  rewrite Hloop in Hstop. simpl in Hstop. subst stop.
  destruct (numbered_Utterance_rows B f entries mks
              (next_id (Utterance_objects db)) Hloop)
    as (Hlen & Hlinked & Horder & Hids).
  exists (set_utterances (insert_all mks (Utterance_objects db))
            (set_files (insert mk (File_objects db)) db1)),
         f, (numbered (next_id (Utterance_objects db)) mks).
  split.
  { rewrite (persist_run B now audio_path metadata (JObj doc) db db1 name topic
               created mk entries mks); try done.
    unfold f. by destruct (File_row_keys B _ _ _ _ _ Hrow
                             (next_id (File_objects db))) as [-> _]. }
  split; [done|]. split; [by rewrite <- rows_insert_all|].
  split; [done|]. split; [|done].
  intros Habsent. destruct Hlist as [Hsome|[_ ->]]; [congruence|].
  by apply nil_length_inv.
Qed.

Lemma persist_valid_document_witness :
  ∃ db' f,
    persist plain 7 "/media/uploads/a.wav" upload_metadata (JObj call2)
      empty_store = (db', Return (File.id f))
    ∧ rows (File_objects db') = [f]
    ∧ rows (Utterance_objects db') = [hello_row; reply_row].
Proof.
  destruct (persist_valid_document plain 7 "/media/uploads/a.wav"
              upload_metadata call2 empty_store (JStr "billing") "billing"
              [JObj hello; JObj reply])
    as (db' & f & us & Hrun & Hfiles & Hutts & Hlen & _ & Hlinked & Horder & Hids).
  - vm_compute. reflexivity.
  - intros topic. vm_compute. discriminate.
  - left. vm_compute. reflexivity.
  - intros f. repeat constructor; eexists; vm_compute; reflexivity.
  - vm_compute. reflexivity.
  - vm_compute. reflexivity.
  - vm_compute. lia.
  - exists db', f. split; [exact Hrun|]. split; [exact Hfiles|].
    rewrite Hutts. simpl.
    assert (f = call1_file) as ->.
    { assert (rows (File_objects (persist plain 7 "/media/uploads/a.wav"
                upload_metadata (JObj call2) empty_store).1) = [f]) as Hrows
        by (rewrite Hrun; exact Hfiles).
      vm_compute in Hrows. by injection Hrows. }
    destruct us as [|u1 [|u2 [|u3 us]]]; try discriminate Hlen.
    pose proof (Hids 0%nat u1 eq_refl) as Hid1.
    pose proof (Hids 1%nat u2 eq_refl) as Hid2.
    apply Forall2_cons_1 in Horder as [(mk1 & Hmk1 & Hu1) Horder].
    apply Forall2_cons_1 in Horder as [(mk2 & Hmk2 & Hu2) _].
    vm_compute in Hmk1. injection Hmk1 as <-.
    vm_compute in Hmk2. injection Hmk2 as <-.
    rewrite Hu1, Hu2, Hid1, Hid2. reflexivity.
Defined.

(** ** Frames to seconds *)

Lemma Utterance_file_found (db : Store) (u : Utterance.t) :
  Store_ok db → u ∈ rows (Utterance_objects db) →
  ∃ f, Utterance.file (File_objects db) u = Return f
       ∧ f ∈ rows (File_objects db)
       ∧ File.id f = Utterance.file_id u.
Proof.
  intros Hok Hu. destruct Hok as [_ _ _ _ _ Hfk].
  rewrite Forall_forall in Hfk. specialize (Hfk u Hu).
  apply list_elem_of_fmap in Hfk as (f0 & Hid & Hf0).
  unfold Utterance.file.
  destruct (filter _ _) as [|f rest] eqn:Hfilter.
  - assert (f0 ∈ filter (λ f, File.id f = Utterance.file_id u)
                   (rows (File_objects db))) as Hin
      by by apply list_elem_of_filter.
    rewrite Hfilter in Hin. by apply elem_of_nil in Hin.
  - assert (f ∈ filter (λ f, File.id f = Utterance.file_id u)
                  (rows (File_objects db))) as Hin by (rewrite Hfilter; left).
    apply list_elem_of_filter in Hin as [Hidf Hinf]. by exists f.
Qed.

(** Rounding keeps the sign it is given. *)
Lemma binary_round_aux_sign (prec emax : Z) (s : bool) (m e : Z) (l : location) :
  binary_round_aux prec emax s m e l = S754_nan
  ∨ sign_bit (binary_round_aux prec emax s m e l) = s.
Proof.
  unfold binary_round_aux.
  destruct (shr_fexp prec emax m e l) as [mrs' e'].
  destruct (shr_fexp prec emax _ e' loc_Exact) as [mrs'' e''].
  destruct (shr_m mrs''); [by right| |by left].
  destruct (e'' <=? emax - prec); by right.
Qed.

Lemma nearest_double_sign (a b : Z) (x : spec_float) :
  b ≠ 0 → nearest_double a b = Return x →
  sign_bit x = xorb (a <? 0) (b <? 0).
Proof.
  intros Hb. unfold nearest_double.
  assert (SFdiv 53 1024 (exact_int a) (exact_int b) = S754_nan
          ∨ sign_bit (SFdiv 53 1024 (exact_int a) (exact_int b))
            = xorb (a <? 0) (b <? 0)) as [-> | Hsign]; [|done|].
  { destruct a as [|a|a], b as [|b|b]; try done; try (by right);
      unfold exact_int, SFdiv;
      destruct (SFdiv_core_binary _ _ _ _ _ _) as [[mz ez] lz];
      apply binary_round_aux_sign. }
  destruct (SFdiv 53 1024 (exact_int a) (exact_int b)); try done;
    by intros [= <-].
Qed.

(** The two readings of [a / b] agree on what rounding keeps: they raise
    [ZeroDivisionError] together, and the double, when the division gives
    one, has the sign of the quotient. *)
Lemma float_truediv_truediv (a b : Z) :
  (float_truediv a b = Raise ZeroDivisionError
   ↔ truediv a b = Raise ZeroDivisionError)
  ∧ ∀ x q, float_truediv a b = Return x → truediv a b = Return q →
      ((q < 0)%Q → sign_bit x = true) ∧ ((0 < q)%Q → sign_bit x = false).
Proof.
  unfold float_truediv, truediv. destruct (b =? 0) eqn:Hzero; [done|].
  apply Z.eqb_neq in Hzero. split.
  - split; [|done]. unfold nearest_double.
    by destruct (SFdiv 53 1024 (exact_int a) (exact_int b)).
  - intros x q Hx [= <-]. rewrite (nearest_double_sign a b x Hzero Hx).
    destruct a as [|a|a], b as [|b|b]; try done;
      unfold Qlt; simpl; split; intros; (done || lia).
Qed.

(** C4, counterexample: the task stores [zero_rate_call], whose [rate] is
    0, and [duration_seconds] and [silence_seconds] of the File row it
    inserted raise [ZeroDivisionError]: they equal no quotient. *)
Lemma seconds_of_a_file_at_rate_zero :
  ∃ f,
    rows (File_objects
            (persist plain 7 "/media/uploads/a.wav" upload_metadata
               (JObj zero_rate_call) empty_store).1) = [f]
    ∧ (persist plain 7 "/media/uploads/a.wav" upload_metadata
         (JObj zero_rate_call) empty_store).2 = Return (File.id f)
    ∧ File.rate f = 0
    ∧ File.duration_seconds_float sample_settings f = Raise ZeroDivisionError
    ∧ File.silence_seconds_float sample_settings f = Raise ZeroDivisionError.
Proof.
  eexists. split; [vm_compute; reflexivity|].
  vm_compute. repeat split; reflexivity.
Qed.

(** C4, amended: for a File whose rate is not zero, [duration_seconds] and
    [silence_seconds] are [duration * hop_length / rate] and
    [silence * hop_length / rate], and [duration_seconds] of an Utterance
    is [(end_time - start_time) * hop_length / rate] with the rate of the
    File its foreign key points to, when that rate is not zero; the product
    is the exact integer and the division that of Python on two [int]s, the
    double nearest to the quotient, or [OverflowError] beyond the range of
    a double.  At a rate of zero the properties raise [ZeroDivisionError].
    [hop_length] is the setting [HOP_LENGTH], 512 when unset.  The values
    are computed from the row and the settings at each read: no column
    holds them. *)
Theorem frames_to_seconds (settings : Settings) (db : Store) (f : File.t)
    (u : Utterance.t) :
  (HOP_LENGTH settings = None → hop_length settings = 512)
  ∧ (∀ h, HOP_LENGTH settings = Some h → hop_length settings = h)
  ∧ (File.rate f ≠ 0 →
     File.duration_seconds_float settings f
     = nearest_double (File.duration f * hop_length settings) (File.rate f)
     ∧ File.silence_seconds_float settings f
       = nearest_double (File.silence f * hop_length settings) (File.rate f))
  ∧ (File.rate f = 0 →
     File.duration_seconds_float settings f = Raise ZeroDivisionError
     ∧ File.silence_seconds_float settings f = Raise ZeroDivisionError)
  ∧ (Store_ok db → u ∈ rows (Utterance_objects db) →
     ∃ file, file ∈ rows (File_objects db)
             ∧ File.id file = Utterance.file_id u
             ∧ (File.rate file ≠ 0 →
                Utterance.duration_seconds_float settings (File_objects db) u
                = nearest_double
                    ((Utterance.end_time u - Utterance.start_time u)
                     * hop_length settings)
                    (File.rate file))
             ∧ (File.rate file = 0 →
                Utterance.duration_seconds_float settings (File_objects db) u
                = Raise ZeroDivisionError)).
Proof.
  unfold hop_length, File.duration_seconds_float, File.silence_seconds_float,
    Utterance.duration_seconds_float, float_truediv.
  split; [by intros ->|]. split; [by intros h ->|]. split; [|split].
  - intros Hrate. apply Z.eqb_neq in Hrate. by rewrite Hrate.
  - intros Hrate. apply Z.eqb_eq in Hrate. by rewrite Hrate.
  - intros Hok Hu. destruct (Utterance_file_found db u Hok Hu)
      as (file & Hfile & Hin & Hid).
    exists file. rewrite Hfile, bind_Return. split; [done|]. split; [done|].
    split; intros Hrate.
    + apply Z.eqb_neq in Hrate. by rewrite Hrate.
    + apply Z.eqb_eq in Hrate. by rewrite Hrate.
Qed.

Lemma frames_to_seconds_witness :
  ∃ f u,
    rows (File_objects after_call1) = [f]
    ∧ rows (Utterance_objects after_call1) = [u]
    ∧ File.duration_seconds_float sample_settings f
      = Return (S754_finite false 6755399441055744 (-42))
    ∧ (float_value (S754_finite false 6755399441055744 (-42)) == 1536)%Q
    ∧ Utterance.duration_seconds_float sample_settings
        (File_objects after_call1) u
      = Return (S754_finite false 5764607523034235 (-50)).
Proof.
  assert (Store_ok after_call1) as Hok.
  { unfold after_call1.
    destruct (persist plain 7 "/media/uploads/a.wav" upload_metadata
                (JObj call1) empty_store) as [db out] eqn:Hrun.
    exact (persist_ok plain _ _ _ _ _ _ _ Store_ok_empty Hrun). }
  destruct (rows (File_objects after_call1)) as [|f fs] eqn:Hf;
    [vm_compute in Hf; discriminate Hf|].
  destruct (rows (Utterance_objects after_call1)) as [|u us] eqn:Hu;
    [vm_compute in Hu; discriminate Hu|].
  vm_compute in Hf. injection Hf as <- <-.
  vm_compute in Hu. injection Hu as <- <-.
  match goal with
  | |- ∃ f u, [?f0] = _ ∧ [?u0] = _ ∧ _ =>
      destruct (frames_to_seconds sample_settings after_call1 f0 u0)
        as (_ & _ & Hfile & _ & Hutt)
  end.
  destruct Hfile as [Hduration _]; [vm_compute; discriminate|].
  destruct Hutt as (file & Hin & _ & Hseconds & _);
    [exact Hok|vm_compute; left|].
  vm_compute in Hin. apply list_elem_of_singleton in Hin. subst file.
  do 2 eexists. split; [reflexivity|]. split; [reflexivity|].
  split; [rewrite Hduration; vm_compute; reflexivity|].
  split; [vm_compute; reflexivity|].
  rewrite Hseconds; [vm_compute; reflexivity|vm_compute; discriminate].
Defined.

(** ** A failed call *)

Lemma call_callytics_eq (settings : Settings) (W : World) (audio_path : string)
    (metadata : dict) :
  call_callytics settings W audio_path metadata =
  match open_rb W audio_path with
  | None => Raise OSError
  | Some f =>
      match requests_post W (CALLYTICS_URL settings) {[ "audio" := f ]}
              {[ "metadata" := JObj metadata ]} 120 with
      | Raise e => Raise e
      | Return resp =>
          if (400 <=? status_code resp) && (status_code resp <? 600)
          then Raise (HTTPError (status_code resp))
          else if bodiless (status_code resp) then Raise JSONDecodeError
          else match body resp with
               | None => Raise JSONDecodeError
               | Some v => Return v
               end
      end
  end.
Proof.
  unfold call_callytics, raise_for_status, Response_json.
  destruct (open_rb W audio_path) as [f|]; [|done].
  destruct (requests_post _ _ _ _ _) as [e|resp]; [done|]. rewrite bind_Return.
  by destruct ((400 <=? status_code resp) && (status_code resp <? 600)).
Qed.

(** C5, counterexample: the server answers 300, which is no success, with
    the document [call1].  [raise_for_status] raises on the statuses from
    400 to 599 only, so the call returns the document and the task stores
    it: a Topic, a File and an Utterance are written. *)
Lemma unsuccessful_status_is_stored :
  requests_post multiple_choices (CALLYTICS_URL sample_settings)
    {[ "audio" := "RIFF"%string ]} {[ "metadata" := JObj upload_metadata ]} 120
  = Return {| status_code := 300; body := Some (JObj call1) |}
  ∧ call_callytics sample_settings multiple_choices "/media/uploads/a.wav"
      upload_metadata = Return (JObj call1)
  ∧ run_callytics_pipeline plain sample_settings multiple_choices
      "/media/uploads/a.wav" upload_metadata empty_store
    = (after_call1, Return 1)
  ∧ rows (Topic_objects after_call1)
    = [{| Topic.id := 1; Topic.name := "billing" |}]
  ∧ rows (File_objects after_call1) = [call1_file]
  ∧ rows (Utterance_objects after_call1) = [hello_row].
Proof. vm_compute. repeat split; reflexivity. Qed.

(** C5, amended: when the call to Callytics fails, because the audio file
    cannot be opened, the request cannot be sent or times out, the server
    answers with an error status, from 400 to 599, or the body cannot be
    parsed (it is no JSON, or the status is one the client reads no body
    for), the exception of the call is the outcome of the task, whatever
    follows the call is not run, and the database is left as it was. *)
Theorem failed_call_stores_nothing (B : Backend) (settings : Settings) (W : World)
    (audio_path : string) (metadata : dict) (db : Store) :
  let post f := requests_post W (CALLYTICS_URL settings) {[ "audio" := f ]}
                  {[ "metadata" := JObj metadata ]} 120 in
  let error_status resp := 400 ≤ status_code resp < 600 in
  let unparsable resp := bodiless (status_code resp) = true ∨ body resp = None in
  open_rb W audio_path = None
  ∨ (∃ f e, open_rb W audio_path = Some f ∧ post f = Raise e)
  ∨ (∃ f resp, open_rb W audio_path = Some f ∧ post f = Return resp
               ∧ (error_status resp ∨ unparsable resp)) →
  ∃ e, call_callytics settings W audio_path metadata = Raise e
       ∧ (∀ store_result,
            pipeline settings W audio_path metadata store_result db
            = (db, Raise e))
       ∧ run_callytics_pipeline B settings W audio_path metadata db
         = (db, Raise e)
       ∧ (open_rb W audio_path = None → e = OSError)
       ∧ (∀ f e', open_rb W audio_path = Some f → post f = Raise e' → e = e')
       ∧ (∀ f resp, open_rb W audio_path = Some f → post f = Return resp →
            (error_status resp → e = HTTPError (status_code resp))
            ∧ (¬ error_status resp → e = JSONDecodeError)).
Proof.
  intros post error_status unparsable Hfail.
  subst post error_status unparsable. cbv beta in *.
  assert (∀ resp, (400 <=? status_code resp) && (status_code resp <? 600) = true
                  ↔ 400 ≤ status_code resp < 600) as Hstatus.
  { intros resp. rewrite andb_true_iff, Z.leb_le, Z.ltb_lt. tauto. }
  pose proof (call_callytics_eq settings W audio_path metadata) as Hcall.
  assert (∃ e, call_callytics settings W audio_path metadata = Raise e)
    as [e He].
  { rewrite Hcall.
    destruct Hfail as [->|[(f & e & -> & ->)|(f & resp & -> & -> & Hresp)]].
    - by exists OSError.
    - by exists e.
    - destruct ((400 <=? status_code resp) && (status_code resp <? 600))
        eqn:Hs; [by eexists|].
      destruct Hresp as [Hrange|[-> | ->]].
      + apply Hstatus in Hrange. congruence.
      + by exists JSONDecodeError.
      + exists JSONDecodeError. by destruct (bodiless (status_code resp)). }
  exists e. split; [done|].
  assert (∀ store_result,
            pipeline settings W audio_path metadata store_result db
            = (db, Raise e)) as Hpipeline.
  { intros store_result. unfold pipeline, pure, mbind, M_bind. by rewrite He. }
  split; [done|]. split; [apply Hpipeline|]. rewrite He in Hcall.
  split; [|split].
  - intros Hopen. rewrite Hopen in Hcall. congruence.
  - intros f e' Hopen Hpost. rewrite Hopen, Hpost in Hcall. congruence.
  - intros f resp Hopen Hpost. rewrite Hopen, Hpost in Hcall.
    destruct ((400 <=? status_code resp) && (status_code resp <? 600)) eqn:Hs.
    + split; [intros _; congruence|]. intros Hno. by apply Hstatus in Hs.
    + split.
      * intros Hyes. apply Hstatus in Hyes. congruence.
      * intros _. destruct (bodiless (status_code resp)); [congruence|].
        destruct (body resp); congruence.
Qed.

Lemma failed_call_stores_nothing_witness :
  run_callytics_pipeline plain sample_settings unreachable
    "/media/uploads/a.wav" upload_metadata empty_store
  = (empty_store, Raise RequestException).
Proof.
  destruct (failed_call_stores_nothing plain sample_settings unreachable
              "/media/uploads/a.wav" upload_metadata empty_store)
    as (e & _ & _ & Hrun & _ & Hsend & _).
  - right. left. exists "RIFF", RequestException. split; reflexivity.
  - rewrite Hrun. f_equal. f_equal.
    apply (Hsend "RIFF" RequestException); reflexivity.
Defined.

(** ** The topic *)

Section TopicFacts.
Variable B : Backend.

(** The later steps of [persist] leave the table of topics as the Topic
    step left it. *)
Lemma persist_topics (now : Z) (audio_path : string) (metadata : dict)
    (result : json) (db db' : Store) (out : outcome Z) (name : json) :
  persist B now audio_path metadata result db = (db', out) →
  topic_name metadata result = Return name →
  Topic_objects db' = Topic_objects (Topic_get_or_create B name db).1.
Proof.
  rewrite persist_eq. intros Hrun Hname. rewrite Hname in Hrun.
  destruct (Topic_get_or_create B name db) as [db1 [e|[topic created]]];
    [by injection Hrun as <- _|].
  destruct (File_row B now topic audio_path result) as [e|mk];
    [by injection Hrun as <- _|].
  cbv zeta in Hrun.
  destruct (entries_of result) as [e|entries]; [by injection Hrun as <- _|].
  destruct (Utterance_rows B _ entries) as [mks stop].
  by injection Hrun as <- _.
Qed.

(** A name in the table is not inserted again; a name that is not there is
    inserted once, at the next id. *)
Lemma Topic_get_or_create_topics (name : json) (n : string) (db : Store) :
  Topic.name_column B name = Some n →
  let db1 := (Topic_get_or_create B name db).1 in
  (n ∈ Topic.name <$> rows (Topic_objects db) →
   Topic_objects db1 = Topic_objects db)
  ∧ (n ∉ Topic.name <$> rows (Topic_objects db) →
     rows (Topic_objects db1)
     = rows (Topic_objects db)
       ++ [{| Topic.id := next_id (Topic_objects db); Topic.name := n |}]).
Proof.
  intros Hn. unfold Topic_get_or_create. rewrite Hn.
  destruct (filter _ _) as [|t [|t' rest]] eqn:Hf; simpl.
  - split; [|done]. intros Hin. by apply Topic_filter_nil in Hf.
  - split; [done|]. intros Hnot. apply Topic_filter_cons in Hf as [Hin <-].
    destruct Hnot. by apply list_elem_of_fmap_2.
  - split; [done|]. intros Hnot. apply Topic_filter_cons in Hf as [Hin <-].
    destruct Hnot. by apply list_elem_of_fmap_2.
Qed.

(** The topic a call found or created is the one a later call of the same
    name finds. *)
Lemma Topic_get_or_create_again (name : json) (db db1 db2 : Store)
    (topic : Topic.t) (created : bool) :
  Topic_get_or_create B name db = (db1, Return (topic, created)) →
  Topic_objects db2 = Topic_objects db1 →
  Topic_get_or_create B name db2 = (db2, Return (topic, false)).
Proof.
  intros Htopic Hsame. pose proof (Topic_get_or_create_cases B name db) as Hcases.
  rewrite Htopic in Hcases. destruct Hcases as (Hn & _ & Hf & _).
  unfold Topic_get_or_create. by rewrite Hn, Hsame, Hf.
Qed.
End TopicFacts.

(** C6, counterexample: the metadata supply an empty [topic_name]; the
    task takes the topic of the result instead. *)
Lemma empty_topic_name_is_skipped :
  let metadata : dict := {[ "topic_name" := JStr "" ]} in
  let run := persist plain 7 "/media/uploads/a.wav" metadata (JObj call1)
               empty_store in
  metadata !! "topic_name" = Some (JStr "")
  ∧ topic_name metadata (JObj call1) = Return (JStr "billing")
  ∧ Topic.name <$> rows (Topic_objects run.1) = ["billing"].
Proof. vm_compute. repeat split; reflexivity. Qed.

(** C6, amended: the topic name is [metadata.topic_name] when it is present
    and truthy (not empty), else [result.topic].  The Topic is looked up by
    that name: a call inserts no Topic row when the table has a row of the
    name, and one row of the name when it has none.  A call that follows a
    call that returned, with the same topic name, leaves the table of
    topics as it is, and the File rows of the two calls point to the same
    Topic. *)
Theorem topic_get_or_create (B : Backend) (now : Z) (audio_path : string)
    (metadata : dict) (result : json) (db : Store) :
  (∀ v, metadata !! "topic_name" = Some v → truthy v = true →
        topic_name metadata result = Return v)
  ∧ (metadata !! "topic_name" = None
     ∨ (∃ v, metadata !! "topic_name" = Some v ∧ truthy v = false) →
     topic_name metadata result = get result "topic" JNull)
  ∧ (∀ name n db' out,
       topic_name metadata result = Return name →
       Topic.name_column B name = Some n →
       persist B now audio_path metadata result db = (db', out) →
       (n ∈ Topic.name <$> rows (Topic_objects db) →
        Topic_objects db' = Topic_objects db)
       ∧ (n ∉ Topic.name <$> rows (Topic_objects db) →
          rows (Topic_objects db')
          = rows (Topic_objects db)
            ++ [{| Topic.id := next_id (Topic_objects db); Topic.name := n |}]))
  ∧ (∀ now' audio_path' metadata' result' db1 db2 id1 out2,
       persist B now audio_path metadata result db = (db1, Return id1) →
       topic_name metadata' result' = topic_name metadata result →
       persist B now' audio_path' metadata' result' db1 = (db2, out2) →
       Topic_objects db2 = Topic_objects db1
       ∧ ∀ id2, out2 = Return id2 →
           ∃ f1 f2 topic,
             rows (File_objects db1) = rows (File_objects db) ++ [f1]
             ∧ rows (File_objects db2) = rows (File_objects db1) ++ [f2]
             ∧ File.id f1 = id1 ∧ File.id f2 = id2
             ∧ topic ∈ rows (Topic_objects db2)
             ∧ File.topic_id f1 = Topic.id topic
             ∧ File.topic_id f2 = Topic.id topic).
Proof.
  split; [|split; [|split]].
  - intros v Hv Htruthy. unfold topic_name. rewrite Hv. simpl. by rewrite Htruthy.
  - intros [Hnone|(v & Hv & Hfalsy)]; unfold topic_name.
    + by rewrite Hnone.
    + rewrite Hv. simpl. by rewrite Hfalsy.
  - intros name n db' out Hname Hn Hrun.
    rewrite (persist_topics B _ _ _ _ _ _ _ _ Hrun Hname).
    by apply Topic_get_or_create_topics.
  - intros now' audio_path' metadata' result' db1 db2 id1 out2 Hrun1 Hsame Hrun2.
    apply persist_Return_inv in Hrun1
      as (name & dbt & topic & created & mk1 & entries1 & mks1 & Hname & Htopic
          & Hrow1 & _ & _ & -> & ->).
    rewrite Hname in Hsame.
    pose proof (Topic_get_or_create_again B name db dbt _ topic created Htopic
                  (eq_refl : Topic_objects
                     (set_utterances (insert_all mks1 (Utterance_objects db))
                        (set_files (insert mk1 (File_objects db)) dbt))
                   = Topic_objects dbt)) as Hagain.
    pose proof (persist_topics B _ _ _ _ _ _ _ _ Hrun2 Hsame) as Htopics.
    rewrite Hagain in Htopics. split; [done|].
    intros id2 ->.
    apply persist_Return_inv in Hrun2
      as (name2 & dbt2 & topic2 & created2 & mk2 & entries2 & mks2 & Hname2
          & Htopic2 & Hrow2 & _ & _ & -> & ->).
    rewrite Hsame in Hname2. injection Hname2 as <-.
    rewrite Hagain in Htopic2. injection Htopic2 as <- <- <-.
    pose proof (Topic_get_or_create_cases B name db) as Hcases.
    rewrite Htopic in Hcases. destruct Hcases as (_ & Hin & _).
    eexists _, _, topic. split; [reflexivity|]. split; [reflexivity|].
    destruct (File_row_keys B _ _ _ _ _ Hrow1 (next_id (File_objects db)))
      as (Hid1 & Ht1 & _).
    destruct (File_row_keys B _ _ _ _ _ Hrow2
                (next_id (File_objects (set_utterances
                   (insert_all mks1 (Utterance_objects db))
                   (set_files (insert mk1 (File_objects db)) dbt)))))
      as (Hid2 & Ht2 & _).
    simpl in *. by repeat split.
Qed.

Lemma topic_get_or_create_witness :
  ∃ db1 db2 f1 f2,
    persist plain 7 "/media/uploads/a.wav" upload_metadata (JObj call1)
      empty_store = (db1, Return (File.id f1))
    ∧ persist plain 8 "/media/uploads/b.wav" {[ "topic_name" := JStr "billing" ]}
        (JObj call1_features) db1 = (db2, Return (File.id f2))
    ∧ Topic_objects db2 = Topic_objects db1
    ∧ File.topic_id f1 = File.topic_id f2.
Proof.
  destruct (persist plain 7 "/media/uploads/a.wav" upload_metadata (JObj call1)
              empty_store) as [db1 out1] eqn:Hrun1.
  destruct (persist plain 8 "/media/uploads/b.wav"
              {[ "topic_name" := JStr "billing" ]} (JObj call1_features) db1)
    as [db2 out2] eqn:Hrun2.
  destruct out1 as [e|id1]; [vm_compute in Hrun1; discriminate Hrun1|].
  destruct out2 as [e|id2].
  { vm_compute in Hrun1. injection Hrun1 as <- _.
    vm_compute in Hrun2. discriminate Hrun2. }
  destruct (topic_get_or_create plain 7 "/media/uploads/a.wav" upload_metadata
              (JObj call1) empty_store) as (_ & _ & _ & Hreuse).
  destruct (Hreuse 8 "/media/uploads/b.wav"
              ({[ "topic_name" := JStr "billing" ]} : dict)
              (JObj call1_features) db1 db2 id1 (Return id2) Hrun1)
    as [Htopics Hfiles]; [vm_compute; reflexivity|exact Hrun2|].
  destruct (Hfiles id2 eq_refl)
    as (f1 & f2 & topic & _ & _ & <- & <- & _ & Ht1 & Ht2).
  exists db1, db2, f1, f2. repeat split; congruence.
Defined.

(** ** Uniqueness in the tables of a session *)

Section Unique.
Import Consultlytics.
Context {R K : Type} `{EqDecision K}.
Variables (db : Db) (session : R → string) (key : R → K).

(** A key that is taken makes the INSERT fail. *)
Lemma checked_insert_taken (r : R) (t : table (Z * R)) :
  key r ∈ keys key t →
  checked_insert db session (Some key) r t = Raise IntegrityError.
Proof.
  intros Hin. unfold checked_insert.
  destruct (negb (session_exists db (session r))); [done|].
  by rewrite bool_decide_eq_true_2.
Qed.

(** An INSERT that succeeds adds a key that was free. *)
Lemma checked_insert_keys (r : R) (t t' : table (Z * R)) :
  checked_insert db session (Some key) r t = Return t' →
  (key r ∉ keys key t) ∧ keys key t' = keys key t ++ [key r].
Proof.
  unfold checked_insert.
  destruct (negb (session_exists db (session r))); [done|].
  case_bool_decide as Hin; [done|]. intros [= <-]. split; [done|].
  unfold keys, insert. simpl. by rewrite fmap_app.
Qed.

Lemma checked_insert_NoDup (r : R) (t t' : table (Z * R)) :
  NoDup (keys key t) →
  checked_insert db session (Some key) r t = Return t' →
  NoDup (keys key t').
Proof.
  intros Hnodup Hins. apply checked_insert_keys in Hins as [Hfree ->].
  apply NoDup_app. split; [done|]. split; [|apply NoDup_singleton].
  intros k Hk Hin. apply list_elem_of_singleton in Hin. by subst.
Qed.
End Unique.

Lemma consistent_empty : Consultlytics.consistent Consultlytics.empty_db.
Proof. split; simpl; constructor. Qed.

Lemma execute_consistent (st : Consultlytics.statement) (db : Consultlytics.Db) :
  Consultlytics.consistent db →
  Consultlytics.consistent (Consultlytics.execute st db).1.
Proof.
  intros [Hs He Hc Hm Hr]. destruct st as [r|r|r|r|r|r]; simpl.
  - unfold Consultlytics.Session_create. case_bool_decide as Hin; [done|].
    split; simpl; try done. rewrite fmap_app. apply NoDup_app.
    split; [done|]. split; [|apply NoDup_singleton].
    intros k Hk Hin'. apply list_elem_of_singleton in Hin'. by subst.
  - unfold Consultlytics.TopNoun_create.
    by destruct (Consultlytics.checked_insert _ _ _ _ _).
  - unfold Consultlytics.EmotionScore_create.
    destruct (Consultlytics.checked_insert _ _ _ _ _) as [e|t] eqn:Hins; [done|].
    split; simpl; try done. by eapply checked_insert_NoDup.
  - unfold Consultlytics.Category_create.
    destruct (Consultlytics.checked_insert _ _ _ _ _) as [e|t] eqn:Hins; [done|].
    split; simpl; try done. by eapply checked_insert_NoDup.
  - unfold Consultlytics.ScriptMetric_create.
    destruct (Consultlytics.checked_insert _ _ _ _ _) as [e|t] eqn:Hins; [done|].
    split; simpl; try done. by eapply checked_insert_NoDup.
  - unfold Consultlytics.ResultClassification_create.
    destruct (Consultlytics.checked_insert _ _ _ _ _) as [e|t] eqn:Hins; [done|].
    split; simpl; try done. by eapply checked_insert_NoDup.
Qed.

Lemma run_consistent (sts : list Consultlytics.statement) (db : Consultlytics.Db) :
  Consultlytics.consistent db → Consultlytics.consistent (Consultlytics.run sts db).
Proof.
  revert db. induction sts as [|st sts IH]; intros db Hdb; [done|].
  apply IH. by apply execute_consistent.
Qed.

(** C7: in a database written by INSERTs from an empty one, a second
    EmotionScore row for a (session, actor) pair that has one is refused
    with [IntegrityError], and so is a second Category, ScriptMetric or
    ResultClassification row for a session that has one; a refused INSERT
    changes nothing.  Hence the pairs of the EmotionScore rows are distinct,
    and so are the sessions of the rows of each of the three other
    tables. *)
Theorem one_row_per_session (sts : list Consultlytics.statement) :
  let db := Consultlytics.run sts Consultlytics.empty_db in
  unique_key Consultlytics.EmotionScore_create
    Consultlytics.EmotionScore.unique_together
    Consultlytics.EmotionScore_objects db
  ∧ unique_key Consultlytics.Category_create Consultlytics.Category.session
      Consultlytics.Category_objects db
  ∧ unique_key Consultlytics.ScriptMetric_create
      Consultlytics.ScriptMetric.session Consultlytics.ScriptMetric_objects db
  ∧ unique_key Consultlytics.ResultClassification_create
      Consultlytics.ResultClassification.session
      Consultlytics.ResultClassification_objects db.
Proof.
  intros db.
  destruct (run_consistent sts _ consistent_empty) as [_ He Hc Hm Hr].
  fold db in He, Hc, Hm, Hr.
  split; [|split; [|split]]; (split; [|split; [|done]]).
  - intros r Hin. unfold Consultlytics.EmotionScore_create.
    by rewrite checked_insert_taken.
  - intros r db1. unfold Consultlytics.EmotionScore_create.
    destruct (Consultlytics.checked_insert _ _ _ _ _) as [e|t] eqn:Hins; [done|].
    intros [= <-]. simpl. apply checked_insert_keys in Hins as [_ ->].
    apply elem_of_app. right. left.
  - intros r Hin. unfold Consultlytics.Category_create.
    by rewrite checked_insert_taken.
  - intros r db1. unfold Consultlytics.Category_create.
    destruct (Consultlytics.checked_insert _ _ _ _ _) as [e|t] eqn:Hins; [done|].
    intros [= <-]. simpl. apply checked_insert_keys in Hins as [_ ->].
    apply elem_of_app. right. left.
  - intros r Hin. unfold Consultlytics.ScriptMetric_create.
    by rewrite checked_insert_taken.
  - intros r db1. unfold Consultlytics.ScriptMetric_create.
    destruct (Consultlytics.checked_insert _ _ _ _ _) as [e|t] eqn:Hins; [done|].
    intros [= <-]. simpl. apply checked_insert_keys in Hins as [_ ->].
    apply elem_of_app. right. left.
  - intros r Hin. unfold Consultlytics.ResultClassification_create.
    by rewrite checked_insert_taken.
  - intros r db1. unfold Consultlytics.ResultClassification_create.
    destruct (Consultlytics.checked_insert _ _ _ _ _) as [e|t] eqn:Hins; [done|].
    intros [= <-]. simpl. apply checked_insert_keys in Hins as [_ ->].
    apply elem_of_app. right. left.
Qed.

Lemma one_row_per_session_witness :
  let db := Consultlytics.run session_a_written Consultlytics.empty_db in
  Consultlytics.EmotionScore_create (emotion "customer" "angry") db
  = (db, Raise IntegrityError)
  ∧ Consultlytics.Category_create (category "unresolved") db
    = (db, Raise IntegrityError)
  ∧ Consultlytics.ScriptMetric_create (script_metric 2) db
    = (db, Raise IntegrityError)
  ∧ Consultlytics.ResultClassification_create (classification "unsatisfied") db
    = (db, Raise IntegrityError)
  ∧ length (rows (Consultlytics.EmotionScore_objects db)) = 1%nat.
Proof.
  intros db.
  destruct (one_row_per_session session_a_written)
    as ((He & _) & (Hc & _) & (Hm & _) & (Hr & _)).
  fold db in He, Hc, Hm, Hr.
  split; [apply He; vm_compute; left|].
  split; [apply Hc; vm_compute; left|].
  split; [apply Hm; vm_compute; left|].
  split; [apply Hr; vm_compute; left|].
  vm_compute. reflexivity.
Defined.

(** ** Two calls with the same input *)






(** ** The upload boundary *)

(** C9: an upload that is accepted enqueues one task; its metadata have
    the keys [user_id], [gender] and [age] and no other, so no
    [topic_name], whatever the request carried; the task then takes the
    topic name from the [topic] of the result. *)
Theorem upload_metadata_keys (F : serializers.Fields) (settings : Settings)
    (H : Host) (request_data : gmap string form_value) (audio_path : string)
    (metadata : dict) :
  (audio_path, metadata) ∈ (post F settings H request_data).2 →
  (post F settings H request_data).2 = [(audio_path, metadata)]
  ∧ status (post F settings H request_data).1 = 202
  ∧ dom metadata = {[ "user_id"; "gender"; "age" ]}
  ∧ metadata !! "topic_name" = None
  ∧ ∀ result, topic_name metadata result = get result "topic" JNull.
Proof.
  unfold post.
  destruct (FileUploadSerializer.is_valid F request_data) as [validated_data|];
    [|by intros Hin%elem_of_nil].
  cbv zeta. unfold snd at 1. intros Hin%list_elem_of_singleton.
  injection Hin as -> ->.
  assert ((<["user_id" := JInt (FileUploadSerializer.user_id validated_data)]>
           (<["gender" := JStr (FileUploadSerializer.gender validated_data)]>
           (<["age" := JInt (FileUploadSerializer.age validated_data)]> ∅)) : dict)
          !! "topic_name" = None) as Hnone.
  { rewrite !lookup_insert_ne by discriminate. apply lookup_empty. }
  split; [done|]. split; [done|]. split; [|split; [done|]].
  - rewrite !dom_insert_L, dom_empty_L. set_solver.
  - intros result. unfold topic_name. by rewrite Hnone.
Qed.

Lemma upload_metadata_keys_witness :
  (post form_fields sample_settings host upload_request).2
  = [("/media/uploads/0f0f.wav", upload_metadata)]
  ∧ upload_metadata !! "topic_name" = None
  ∧ topic_name upload_metadata (JObj call1) = Return (JStr "billing").
Proof.
  destruct (upload_metadata_keys form_fields sample_settings host upload_request
              "/media/uploads/0f0f.wav" upload_metadata)
    as (Hcalls & _ & _ & Hnone & Htopic).
  - vm_compute. left.
  - split; [exact Hcalls|]. split; [exact Hnone|]. rewrite Htopic.
    vm_compute. reflexivity.
Defined.

(** ** An utterance that ends before it starts *)





(** * Further properties *)

(** ** What the task leaves in the database *)

Lemma prefix_insert_all {R} (mks : list (Z → R)) (t : table R) :
  rows t `prefix_of` rows (insert_all mks t).
Proof. rewrite rows_insert_all. by apply prefix_app_r. Qed.

Lemma persist_appends (B : Backend) (now : Z) (audio_path : string)
    (metadata : dict) (result : json) (db : Store) :
  let db' := (persist B now audio_path metadata result db).1 in
  rows (Topic_objects db) `prefix_of` rows (Topic_objects db')
  ∧ rows (File_objects db) `prefix_of` rows (File_objects db')
  ∧ rows (Utterance_objects db) `prefix_of` rows (Utterance_objects db')
  ∧ (length (rows (Topic_objects db')) ≤ length (rows (Topic_objects db)) + 1)%nat
  ∧ (length (rows (File_objects db')) ≤ length (rows (File_objects db)) + 1)%nat.
Proof.
  rewrite persist_eq.
  destruct (topic_name metadata result) as [e|name]; simpl;
    [repeat split; (done || lia)|].
  pose proof (Topic_get_or_create_cases B name db) as Hcases.
  destruct (Topic_get_or_create B name db) as [db1 out1] eqn:Htopic.
  destruct (Topic_get_or_create_frame B _ _ _ _ Htopic) as [Hf Hu].
  assert (rows (Topic_objects db) `prefix_of` rows (Topic_objects db1)
          ∧ (length (rows (Topic_objects db1))
             ≤ length (rows (Topic_objects db)) + 1)%nat) as [Hprefix Hlen].
  { destruct out1 as [e|[topic [|]]].
    - subst db1. split; [done|lia].
    - destruct Hcases as (_ & _ & _ & _ & _ & ->). simpl.
      split; [by apply prefix_app_r|]. rewrite length_app. simpl. lia.
    - destruct Hcases as (_ & _ & _ & ->). split; [done|lia]. }
  destruct out1 as [e|[topic created]]; simpl;
    [rewrite Hf, Hu; repeat split; (done || lia)|].
  destruct (File_row B now topic audio_path result) as [e|mk]; simpl;
    [rewrite Hf, Hu; repeat split; (done || lia)|].
  destruct (entries_of result) as [e|entries]; simpl.
  { rewrite Hf, Hu. repeat split; try done.
    - by apply prefix_app_r.
    - rewrite length_app. simpl. lia. }
  destruct (Utterance_rows B _ entries) as [mks stop]. simpl.
  rewrite Hf. repeat split; try done.
  - by apply prefix_app_r.
  - rewrite <- Hu. apply prefix_insert_all.
  - rewrite length_app. simpl. lia.
Qed.

(** X2: a run of the task only appends: the rows each table had before the
    run are, unchanged and in the same order, the first rows it has after
    it, whether the task returns or raises; and a run adds at most one Topic
    and at most one File. *)
Theorem task_only_appends (B : Backend) (settings : Settings) (W : World)
    (audio_path : string) (metadata : dict) (db : Store) :
  let db' := (run_callytics_pipeline B settings W audio_path metadata db).1 in
  rows (Topic_objects db) `prefix_of` rows (Topic_objects db')
  ∧ rows (File_objects db) `prefix_of` rows (File_objects db')
  ∧ rows (Utterance_objects db) `prefix_of` rows (Utterance_objects db')
  ∧ (length (rows (Topic_objects db')) ≤ length (rows (Topic_objects db)) + 1)%nat
  ∧ (length (rows (File_objects db')) ≤ length (rows (File_objects db)) + 1)%nat.
Proof.
  unfold run_callytics_pipeline, pipeline, pure, mbind, M_bind.
  destruct (call_callytics settings W audio_path metadata) as [e|result].
  - simpl. repeat split; (done || lia).
  - pose proof (persist_appends B (timezone_now W) audio_path metadata result db)
      as H.
    by destruct (persist B (timezone_now W) audio_path metadata result db).
Qed.

Lemma run_callytics_pipeline_ok (B : Backend) (settings : Settings) (W : World)
    (audio_path : string) (metadata : dict) (db : Store) :
  Store_ok db →
  Store_ok (run_callytics_pipeline B settings W audio_path metadata db).1.
Proof.
  intros Hok. unfold run_callytics_pipeline, pipeline, pure, mbind, M_bind.
  destruct (call_callytics settings W audio_path metadata) as [e|result]; [done|].
  destruct (persist B (timezone_now W) audio_path metadata result db)
    as [db' out] eqn:Hrun.
  by eapply persist_ok.
Qed.

(** X3: whatever tasks a worker has run one after the other on an empty
    database, and whatever their outcomes, the ids of each table are
    distinct, every File points to a Topic that exists, every Utterance
    points to a File that exists, and no two Topics have the same name. *)
Theorem tasks_keep_the_database_sound (B : Backend) (settings : Settings)
    (tasks : list task) :
  Store_ok (run_tasks B settings tasks empty_store).
Proof.
  unfold run_tasks. generalize Store_ok_empty. generalize empty_store.
  induction tasks as [|t tasks IH]; intros db Hok; [done|].
  simpl. apply IH. by apply run_callytics_pipeline_ok.
Qed.

(** ** Results and entries of another shape *)

Lemma File_kwargs_no_object (topic : Topic.t) (audio_path : string)
    (result : json) :
  is_object result = false →
  File_kwargs topic audio_path result = Raise TypeError.
Proof. by destruct result. Qed.

Lemma Utterance_row_no_object (B : Backend) (f : File.t) (utt : json) :
  is_object utt = false → Utterance_row B f utt = Raise TypeError.
Proof. by destruct utt. Qed.

Lemma Utterance_rows_no_objects (B : Backend) (f : File.t) (entries : list json) :
  Forall (λ utt, is_object utt = false) entries →
  Utterance_rows B f entries
  = ([], match entries with [] => None | _ => Some TypeError end).
Proof.
  destruct 1 as [|utt entries Hutt _]; [done|]. simpl.
  by rewrite Utterance_row_no_object.
Qed.

(** X4: when the service returns JSON that is no object (a list, a string,
    a number, null), [persist] inserts no File and no Utterance, and
    raises.  If the metadata give no truthy [topic_name] it raises
    [AttributeError] on [result.get] before it touches the database.
    Otherwise the Topic step runs on the supplied name: when it raises, its
    exception is the outcome; when it returns, the Topic it found or
    created stays and [result["name"]] raises [TypeError]. *)
Theorem result_that_is_no_object (B : Backend) (now : Z) (audio_path : string)
    (metadata : dict) (result : json) (db : Store) :
  is_object result = false →
  let supplied := default JNull (metadata !! "topic_name") in
  let run := persist B now audio_path metadata result db in
  (truthy supplied = false → run = (db, Raise AttributeError))
  ∧ (truthy supplied = true →
     ∀ db1 out, Topic_get_or_create B supplied db = (db1, out) →
       run = (db1, match out with
                   | Raise e => Raise e
                   | Return _ => Raise TypeError
                   end))
  ∧ File_objects run.1 = File_objects db
  ∧ Utterance_objects run.1 = Utterance_objects db.
Proof.
  intros Hshape supplied run. unfold run, supplied. rewrite persist_eq.
  unfold topic_name.
  destruct (truthy (default JNull (metadata !! "topic_name"))).
  - split; [done|].
    destruct (Topic_get_or_create B _ db) as [db1 out1] eqn:Htopic.
    destruct (Topic_get_or_create_frame B _ _ _ _ Htopic) as [Hf Hu].
    assert (∀ topic, File_row B now topic audio_path result = Raise TypeError)
      as Hrow.
    { intros topic. unfold File_row. by rewrite File_kwargs_no_object. }
    split.
    + intros _ db1' out [= <- <-].
      destruct out1 as [e|[topic created]]; [done|]. by rewrite Hrow.
    + destruct out1 as [e|[topic created]]; [done|]. by rewrite Hrow.
  - assert (get result "topic" JNull = Raise AttributeError) as ->
      by by destruct result.
    done.
Qed.

Lemma result_that_is_no_object_witness :
  persist plain 7 "/media/uploads/a.wav" named_metadata (JArr [JObj call1])
    empty_store = (billing_only, Raise TypeError).
Proof.
  destruct (result_that_is_no_object plain 7 "/media/uploads/a.wav"
              named_metadata (JArr [JObj call1]) empty_store)
    as (_ & Hrun & _); [reflexivity|].
  apply (Hrun ltac:(vm_compute; reflexivity) billing_only
           (Return ({| Topic.id := 1; Topic.name := "billing" |}, true))).
  vm_compute. reflexivity.
Defined.

(** What a loop over a value that is no list visits: nothing that is an
    object, and nothing at all only for the empty object and the empty
    string. *)
Lemma iter_no_list (v : json) :
  is_array v = false →
  match iter v with
  | Raise e => e = TypeError ∧ v ≠ JObj ∅ ∧ v ≠ JStr ""
  | Return entries =>
      Forall (λ utt, is_object utt = false) entries
      ∧ (entries = [] ↔ v = JObj ∅ ∨ v = JStr "")
  end.
Proof.
  destruct v as [| | | |s|l|m]; try done; simpl; intros _.
  - split; [apply Forall_fmap; by apply Forall_true|]. split.
    + intros Hnil. right. f_equal. apply fmap_nil_inv in Hnil. by destruct s.
    + intros [?|[= ->]]; done.
  - split; [apply Forall_fmap; by apply Forall_true|]. split.
    + intros Hnil. left. f_equal. apply fmap_nil_inv in Hnil.
      apply fmap_nil_inv in Hnil. by apply map_to_list_empty_iff.
    + intros [[= ->]|?]; [|done]. by rewrite map_to_list_empty.
Qed.

(** X5: when [utterances] is present and is no list, [persist] inserts no
    Utterance.  When the Topic and the File steps go through, the File row
    is inserted and stays, and [persist] returns its id for an empty object
    or an empty string, over which the loop does not run, and raises
    [TypeError] for null, a number, a boolean, a non-empty object or a
    non-empty string. *)
Theorem utterances_that_are_no_list (B : Backend) (now : Z) (audio_path : string)
    (metadata : dict) (doc : dict) (db : Store) (v : json) :
  doc !! "utterances" = Some v → is_array v = false →
  let run := persist B now audio_path metadata (JObj doc) db in
  Utterance_objects run.1 = Utterance_objects db
  ∧ (∀ name db1 topic created mk,
       topic_name metadata (JObj doc) = Return name →
       Topic_get_or_create B name db = (db1, Return (topic, created)) →
       File_row B now topic audio_path (JObj doc) = Return mk →
       rows (File_objects run.1)
       = rows (File_objects db) ++ [mk (next_id (File_objects db))]
       ∧ (v = JObj ∅ ∨ v = JStr "" →
          run.2 = Return (next_id (File_objects db)))
       ∧ (v ≠ JObj ∅ → v ≠ JStr "" → run.2 = Raise TypeError))
  ∧ (∀ file_id, run.2 = Return file_id → v = JObj ∅ ∨ v = JStr "").
Proof.
  intros Hv Hshape run.
  assert (entries_of (JObj doc) = iter v) as Hentries.
  { unfold entries_of. by rewrite get_JObj, Hv, bind_Return. }
  pose proof (iter_no_list v Hshape) as Hiter.
  assert (∀ f entries, iter v = Return entries →
            Utterance_rows B f entries
            = ([], match entries with [] => None | _ => Some TypeError end))
    as Hloop.
  { intros f entries Heq. rewrite Heq in Hiter.
    apply Utterance_rows_no_objects, Hiter. }
  split; [|split].
  - unfold run. rewrite persist_eq.
    destruct (topic_name metadata (JObj doc)) as [e|name]; [done|].
    destruct (Topic_get_or_create B name db) as [db1 out1] eqn:Htopic.
    destruct (Topic_get_or_create_frame B _ _ _ _ Htopic) as [_ Hu].
    destruct out1 as [e|[topic created]]; [done|].
    destruct (File_row B now topic audio_path (JObj doc)) as [e|mk]; [done|].
    cbv zeta. rewrite Hentries.
    destruct (iter v) as [e|entries] eqn:Heq; [done|].
    by rewrite (Hloop _ entries eq_refl).
  - intros name db1 topic created mk Hname Htopic Hrow.
    destruct (Topic_get_or_create_frame B _ _ _ _ Htopic) as [Hf Hu].
    destruct (File_row_keys B _ _ _ _ _ Hrow (next_id (File_objects db)))
      as [Hid _].
    unfold run. rewrite persist_eq, Hname, Htopic, Hrow. cbv zeta.
    rewrite Hentries, Hf.
    destruct (iter v) as [e|entries] eqn:Heq.
    + destruct Hiter as (-> & Hobj & Hstr). simpl.
      split; [done|]. split; [by intros [?|?]|done].
    + rewrite (Hloop _ entries eq_refl). simpl. destruct Hiter as [_ Hnil].
      split; [done|]. destruct entries as [|utt entries].
      * split; [by rewrite Hid|]. intros Hobj Hstr.
        destruct (proj1 Hnil eq_refl); done.
      * split; [|done]. intros Hempty. by apply Hnil in Hempty.
  - intros file_id. unfold run. rewrite persist_eq.
    destruct (topic_name metadata (JObj doc)) as [e|name]; [done|].
    destruct (Topic_get_or_create B name db) as [db1 [e|[topic created]]];
      [done|].
    destruct (File_row B now topic audio_path (JObj doc)) as [e|mk]; [done|].
    cbv zeta. rewrite Hentries.
    destruct (iter v) as [e|entries] eqn:Heq; [done|].
    rewrite (Hloop _ entries eq_refl). destruct Hiter as [_ Hnil].
    destruct entries; [|done]. intros _. by apply Hnil.
Qed.

Lemma utterances_that_are_no_list_witness :
  let run := persist plain 7 "/media/uploads/a.wav" upload_metadata
               (JObj (<["utterances" := JNull]> call1)) empty_store in
  run.2 = Raise TypeError
  ∧ Utterance_objects run.1 = empty_table
  ∧ rows (File_objects run.1) = [call1_file].
Proof.
  intros run.
  destruct (utterances_that_are_no_list plain 7 "/media/uploads/a.wav"
              upload_metadata (<["utterances" := JNull]> call1) empty_store JNull)
    as (Hutts & Hfile & _); [reflexivity|reflexivity|].
  edestruct Hfile as (Hrows & _ & Hraise);
    [vm_compute; reflexivity|vm_compute; reflexivity|vm_compute; reflexivity|].
  split; [by apply Hraise|]. split; [exact Hutts|].
  unfold run. rewrite Hrows. vm_compute. reflexivity.
Defined.

(** ** The rows against the document *)

Lemma bind_Raise {A C} (e : exn) (f : A → outcome C) : Raise e ≫= f = Raise e.
Proof. reflexivity. Qed.

(** One [d[key]] at the head of the binds in [H]. *)
Ltac read_key doc H key :=
  rewrite (getitem_JObj doc key) in H;
  destruct (doc !! key) eqn:?;
  [rewrite bind_Return in H; cbv beta in H
  |rewrite !bind_Raise in H; discriminate H].

Lemma File_row_holds (B : Backend) (now : Z) (topic : Topic.t)
    (audio_path : string) (doc : dict) (mk : Z → File.t) :
  File_row B now topic audio_path (JObj doc) = Return mk →
  ∀ id, File_holds B doc (mk id).
Proof.
  intros H id. unfold File_row, File_kwargs in H.
  read_key doc H "name". read_key doc H "extension". read_key doc H "rate".
  read_key doc H "bit_depth". read_key doc H "channels".
  read_key doc H "duration". read_key doc H "min_freq".
  read_key doc H "max_freq". read_key doc H "rms_loud".
  read_key doc H "zero_cross". read_key doc H "spec_cent".
  read_key doc H "spec_bw". read_key doc H "spec_flat".
  read_key doc H "rolloff". read_key doc H "chroma_stft".
  read_key doc H "spec_contr". read_key doc H "tonnetz". read_key doc H "mfcc".
  rewrite get_JObj, bind_Return in H. cbv beta in H.
  remember (default (JStr "") (doc !! "summary")) as summary eqn:Hsummary.
  read_key doc H "conflict". read_key doc H "silence".
  unfold mret, outcome_ret in H. rewrite bind_Return in H.
  destruct (File.columns B now _) as [mk'|] eqn:Hcol; [|discriminate H].
  injection H as <-. unfold File.columns in Hcol. simpl in Hcol.
  option_steps Hcol. injection Hcol as <-.
  unfold File_holds, stores. rewrite <- Hsummary.
  repeat split; try (eexists; split; [eassumption|eassumption]).
  eassumption.
Qed.

Lemma Utterance_row_holds (B : Backend) (f : File.t) (m : dict)
    (mk : Z → Utterance.t) :
  Utterance_row B f (JObj m) = Return mk →
  ∀ id, Utterance_holds B m (mk id).
Proof.
  intros H id. unfold Utterance_row, Utterance_kwargs in H.
  read_key m H "speaker". read_key m H "sequence". read_key m H "start_time".
  read_key m H "end_time". read_key m H "content". read_key m H "sentiment".
  read_key m H "profane".
  unfold mret, outcome_ret in H. rewrite bind_Return in H.
  destruct (Utterance.columns B _) as [mk'|] eqn:Hcol; [|discriminate H].
  injection H as <-. unfold Utterance.columns in Hcol. simpl in Hcol.
  option_steps Hcol. injection Hcol as <-.
  unfold Utterance_holds, stores.
  repeat split; eexists; split; eassumption.
Qed.

(** X6: in a run of [persist] that returns, every column of the new File
    row holds what its field stores for the value of the key of the same
    name in the result, and an absent [summary] is stored as the empty
    string; the row holds the audio path of the task and the time of the
    insert, it points to the Topic of the name that was looked up, and its
    id, which [persist] returns, is above the id of every File there
    was. *)
Theorem File_row_follows_result (B : Backend) (now : Z) (audio_path : string)
    (metadata : dict) (doc : dict) (db db' : Store) (file_id : Z) :
  Store_ok db →
  persist B now audio_path metadata (JObj doc) db = (db', Return file_id) →
  ∃ f topic name,
    rows (File_objects db') = rows (File_objects db) ++ [f]
    ∧ File.id f = file_id
    ∧ Forall (λ f', File.id f' < file_id) (rows (File_objects db))
    ∧ File_holds B doc f
    ∧ TextField B (JStr audio_path) = Some (File.path f)
    ∧ File.created_at f = now
    ∧ topic_name metadata (JObj doc) = Return name
    ∧ Topic.name_column B name = Some (Topic.name topic)
    ∧ topic ∈ rows (Topic_objects db')
    ∧ File.topic_id f = Topic.id topic.
Proof.
  intros Hok Hrun.
  apply persist_Return_inv in Hrun
    as (name & dbt & topic & created & mk & entries & mks & Hname & Htopic
        & Hrow & _ & _ & -> & ->).
  pose proof (Topic_get_or_create_cases B name db) as Hcases.
  rewrite Htopic in Hcases. destruct Hcases as (Hcolumn & Hin & _).
  destruct (File_row_keys B _ _ _ _ _ Hrow (next_id (File_objects db)))
    as (Hid & Htid & Hpath & Hnow).
  exists (mk (next_id (File_objects db))), topic, name.
  split; [done|]. split; [done|].
  split; [by destruct Hok as [_ [_ ?] _ _ _ _]|].
  split; [by eapply File_row_holds|]. done.
Qed.

Lemma File_row_follows_result_witness :
  ∃ db' f,
    persist plain 7 "/media/uploads/a.wav" upload_metadata
      (JObj call1) empty_store = (db', Return 1)
    ∧ rows (File_objects db') = [f]
    ∧ File.summary f = Some ""%string
    ∧ File.rate f = 16000
    ∧ File.path f = "/media/uploads/a.wav"%string.
Proof.
  destruct (persist plain 7 "/media/uploads/a.wav" upload_metadata
              (JObj call1) empty_store) as [db' out] eqn:Hrun.
  assert (out = Return 1) as -> by (vm_compute in Hrun; congruence).
  destruct (File_row_follows_result plain 7 "/media/uploads/a.wav"
              upload_metadata call1 empty_store db' 1 Store_ok_empty Hrun)
    as (f & topic & name & Hrows & _ & _ & Hholds & Hpath & _).
  destruct Hholds as (_ & _ & (v & Hv & Hrate) & Hrest).
  do 17 destruct Hrest as (_ & Hrest).
  vm_compute in Hv. injection Hv as <-.
  vm_compute in Hrest. injection Hrest as Hsummary.
  vm_compute in Hrate. injection Hrate as Hrate.
  vm_compute in Hpath. injection Hpath as Hpath.
  exists db', f. split; [reflexivity|]. split; [exact Hrows|].
  split; [exact (eq_sym Hsummary)|].
  split; [exact (eq_sym Hrate)|exact (eq_sym Hpath)].
Defined.

(** X7: a run of [persist] that returns was given an object.  When its
    [utterances] is a list, the Utterance rows the run inserted match the
    entries of that list one to one, in order: every entry is an object,
    every column of its row holds what its field stores for the value of
    the key of the same name in the entry, and the row points to the new
    File.  When [utterances] is absent or is no list, the run inserted no
    Utterance. *)
Theorem Utterance_rows_follow_result (B : Backend) (now : Z)
    (audio_path : string) (metadata : dict) (result : json) (db db' : Store)
    (file_id : Z) :
  persist B now audio_path metadata result db = (db', Return file_id) →
  let new := drop (length (rows (Utterance_objects db)))
                  (rows (Utterance_objects db')) in
  ∃ doc,
    result = JObj doc
    ∧ match doc !! "utterances" with
      | Some (JArr entries) =>
          Forall2 (λ utt u, ∃ m, utt = JObj m ∧ Utterance_holds B m u
                                 ∧ Utterance.file_id u = file_id)
                  entries new
      | _ => new = []
      end.
Proof.
  intros Hrun new. unfold new.
  apply persist_Return_inv in Hrun
    as (name & dbt & topic & created & mk & entries & mks & _ & _ & Hrow
        & Hentries & Hloop & -> & ->).
  destruct result as [| | | | | |doc];
    try (unfold File_row in Hrow; by rewrite File_kwargs_no_object in Hrow).
  exists doc. split; [done|]. simpl. rewrite rows_insert_all, drop_app_length.
  assert (∀ v, is_array v = false → iter v = Return entries →
            numbered (next_id (Utterance_objects db)) mks = []) as Hnone.
  { intros v Hshape Hiter. pose proof (iter_no_list v Hshape) as Hv.
    rewrite Hiter in Hv. destruct Hv as [Hv _].
    rewrite (Utterance_rows_no_objects B _ entries Hv) in Hloop.
    by injection Hloop as <- _. }
  unfold entries_of in Hentries. rewrite get_JObj, bind_Return in Hentries.
  destruct (doc !! "utterances") as [v|]; simpl in Hentries.
  2: { injection Hentries as <-. simpl in Hloop. by injection Hloop as <-. }
  destruct v as [| | | | |l|];
    try (refine (Hnone _ _ Hentries); reflexivity).
  simpl in Hentries. injection Hentries as ->.
  destruct (numbered_Utterance_rows B _ entries mks
              (next_id (Utterance_objects db)) Hloop)
    as (_ & Hlinked & Horder & _).
  destruct (File_row_keys B _ _ _ _ _ Hrow (next_id (File_objects db)))
    as (Hid & _).
  rewrite Forall_forall in Hlinked.
  apply Forall2_same_length_lookup. split; [by eapply Forall2_length|].
  intros i utt u Hutt Hu.
  destruct (Forall2_lookup_lr _ _ _ _ _ _ Horder Hutt Hu) as (mk' & Hmk & Heq).
  destruct utt as [| | | | | |m];
    try (by rewrite Utterance_row_no_object in Hmk).
  exists m. split; [done|]. split.
  - rewrite Heq. by eapply Utterance_row_holds.
  - rewrite (Hlinked u (list_elem_of_lookup_2 _ _ _ Hu)). exact Hid.
Qed.

Lemma Utterance_rows_follow_result_witness :
  ∃ db' u1 u2,
    persist plain 7 "/media/uploads/a.wav" upload_metadata
      (JObj call2) empty_store = (db', Return 1)
    ∧ rows (Utterance_objects db') = [u1; u2]
    ∧ Utterance.file_id u1 = 1 ∧ Utterance.content u1 = "hello"%string
    ∧ Utterance.file_id u2 = 1 ∧ Utterance.content u2 = "hi"%string.
Proof.
  destruct (persist plain 7 "/media/uploads/a.wav" upload_metadata
              (JObj call2) empty_store) as [db' out] eqn:Hrun.
  assert (out = Return 1) as -> by (vm_compute in Hrun; congruence).
  destruct (Utterance_rows_follow_result plain 7 "/media/uploads/a.wav"
              upload_metadata (JObj call2) empty_store db' 1 Hrun)
    as (doc & Hdoc & Hrows).
  injection Hdoc as <-.
  assert (call2 !! "utterances" = Some (JArr [JObj hello; JObj reply]))
    as Hlist by (vm_compute; reflexivity).
  rewrite Hlist in Hrows. simpl in Hrows. rewrite drop_0 in Hrows.
  apply Forall2_cons_inv_l in Hrows
    as (u1 & us & (m1 & Hm1 & Hholds1 & Hfile1) & Hrest & Hrows).
  apply Forall2_cons_inv_l in Hrest
    as (u2 & us' & (m2 & Hm2 & Hholds2 & Hfile2) & Hnil%Forall2_nil_inv_l & ->).
  subst us'. injection Hm1 as <-. injection Hm2 as <-.
  destruct Hholds1 as (_ & _ & _ & _ & (v1 & Hv1 & Hcontent1) & _).
  destruct Hholds2 as (_ & _ & _ & _ & (v2 & Hv2 & Hcontent2) & _).
  vm_compute in Hv1. injection Hv1 as <-.
  vm_compute in Hcontent1. injection Hcontent1 as Hcontent1.
  vm_compute in Hv2. injection Hv2 as <-.
  vm_compute in Hcontent2. injection Hcontent2 as Hcontent2.
  exists db', u1, u2. split; [reflexivity|]. split; [exact Hrows|].
  split; [exact Hfile1|]. split; [exact (eq_sym Hcontent1)|].
  split; [exact Hfile2|exact (eq_sym Hcontent2)].
Defined.

(** X8: the loop reads the seven keys of an entry before it inserts.  An
    entry that is no object raises [TypeError], and an object that lacks
    keys raises the [KeyError] of the first one it lacks, in the order
    speaker, sequence, start_time, end_time, content, sentiment, profane;
    either way the body of the loop inserts nothing. *)
Theorem utterance_entry_errors (B : Backend) (f : File.t) (utt : json)
    (db : Store) :
  (is_object utt = false →
   create_utterance B f utt db = (db, Raise TypeError))
  ∧ (∀ m key rest,
       utt = JObj m → lacking utterance_keys m = key :: rest →
       create_utterance B f utt db = (db, Raise (KeyError key))).
Proof.
  split.
  - intros Hshape. by rewrite create_utterance_eq, Utterance_row_no_object.
  - intros m key rest -> H. rewrite create_utterance_eq.
    assert (Utterance_kwargs f (JObj m) = Raise (KeyError key)) as Hkw.
    { unfold lacking, utterance_keys in H. unfold Utterance_kwargs.
      do 7 (next_key m H; [|by injection H as <- _]).
      by rewrite filter_nil in H. }
    unfold Utterance_row. by rewrite Hkw.
Qed.

Lemma utterance_entry_errors_witness :
  create_utterance plain call1_file
    (JObj (delete "sequence" (delete "content" hello))) empty_store
  = (empty_store, Raise (KeyError "sequence"))
  ∧ create_utterance plain call1_file (JStr "hello") empty_store
    = (empty_store, Raise TypeError).
Proof.
  destruct (utterance_entry_errors plain call1_file
              (JObj (delete "sequence" (delete "content" hello))) empty_store)
    as [_ Hkey].
  destruct (utterance_entry_errors plain call1_file (JStr "hello") empty_store)
    as [Htype _].
  split; [|by apply Htype].
  eapply (Hkey _ "sequence" ["content"]); [reflexivity|].
  vm_compute. reflexivity.
Defined.

(** X9: the Topic is committed before the File is built.  When the
    document lacks a required field and the topic name is new, [persist]
    raises the [KeyError] of the field and leaves the new Topic row behind,
    with no File that points to it. *)
Theorem failed_persist_keeps_new_topic (B : Backend) (now : Z)
    (audio_path : string) (metadata : dict) (doc : dict) (db : Store)
    (key : string) (rest : list string) (name : json) (n : string) :
  missing doc = key :: rest →
  topic_name metadata (JObj doc) = Return name →
  Topic.name_column B name = Some n →
  n ∉ Topic.name <$> rows (Topic_objects db) →
  ∃ db',
    persist B now audio_path metadata (JObj doc) db = (db', Raise (KeyError key))
    ∧ rows (Topic_objects db')
      = rows (Topic_objects db)
        ++ [{| Topic.id := next_id (Topic_objects db); Topic.name := n |}]
    ∧ File_objects db' = File_objects db
    ∧ Utterance_objects db' = Utterance_objects db.
Proof.
  intros Hmissing Hname Hcolumn Hnew.
  destruct (Topic_get_or_create_topics B name n db Hcolumn) as [_ Hcreated].
  specialize (Hcreated Hnew).
  rewrite persist_eq, Hname.
  destruct (Topic_get_or_create B name db) as [db1 out1] eqn:Htopic.
  destruct (Topic_get_or_create_frame B _ _ _ _ Htopic) as [Hf Hu].
  simpl in Hcreated.
  destruct out1 as [e|[topic created]].
  - pose proof (Topic_get_or_create_cases B name db) as Hcases.
    rewrite Htopic in Hcases. subst db1.
    apply (f_equal length) in Hcreated. rewrite length_app in Hcreated.
    simpl in Hcreated. lia.
  - unfold File_row. rewrite (File_kwargs_first_missing _ _ _ _ _ Hmissing).
    by exists db1.
Qed.

Lemma failed_persist_keeps_new_topic_witness :
  ∃ db',
    persist plain 7 "/media/uploads/a.wav" upload_metadata (JObj nameless)
      empty_store = (db', Raise (KeyError "name"))
    ∧ Topic.name <$> rows (Topic_objects db') = ["billing"]
    ∧ File_objects db' = empty_table.
Proof.
  destruct (failed_persist_keeps_new_topic plain 7 "/media/uploads/a.wav"
              upload_metadata nameless empty_store "name" [] (JStr "billing")
              "billing")
    as (db' & Hrun & Htopics & Hfiles & _).
  - vm_compute. reflexivity.
  - vm_compute. reflexivity.
  - vm_compute. reflexivity.
  - intros Hin. by apply elem_of_nil in Hin.
  - exists db'. split; [exact Hrun|]. split; [by rewrite Htopics|exact Hfiles].
Defined.

(** ** The upload boundary, further *)

Lemma lower_ascii_idempotent (c : ascii) :
  lower_ascii (lower_ascii c) = lower_ascii c.
Proof. destruct c as [[] [] [] [] [] [] [] []]; reflexivity. Qed.

Lemma lower_idempotent (s : string) : lower (lower s) = lower s.
Proof.
  induction s as [|c s IH]; [done|]. simpl.
  by rewrite lower_ascii_idempotent, IH.
Qed.

(** X12: [validate_gender] is insensitive to case and normalizes: a value
    and its lowercase form are accepted or rejected alike, an accepted
    value comes back in lowercase as one of male, female and other, and
    what comes back is accepted unchanged. *)
Theorem validate_gender_normalizes (value : string) :
  FileUploadSerializer.validate_gender (lower value)
  = FileUploadSerializer.validate_gender value
  ∧ (∀ g, FileUploadSerializer.validate_gender value = Some g →
          g = lower value
          ∧ g ∈ ["male"; "female"; "other"]
          ∧ FileUploadSerializer.validate_gender g = Some g)
  ∧ (FileUploadSerializer.validate_gender value = None
     ↔ lower value ∉ ["male"; "female"; "other"]).
Proof.
  unfold FileUploadSerializer.validate_gender. rewrite !lower_idempotent.
  split; [done|]. split.
  - intros g. case_bool_decide as Hin; [|done]. intros [= <-].
    rewrite lower_idempotent. split; [done|]. split; [done|].
    by rewrite bool_decide_eq_true_2.
  - case_bool_decide as Hin; split; done.
Qed.

Lemma validate_gender_normalizes_witness :
  FileUploadSerializer.validate_gender "FeMale" = Some "female"%string
  ∧ FileUploadSerializer.validate_gender "female" = Some "female"%string.
Proof.
  destruct (validate_gender_normalizes "FeMale") as (_ & Haccepted & _).
  destruct (Haccepted "female"%string) as (_ & _ & Hagain);
    [vm_compute; reflexivity|].
  split; [vm_compute; reflexivity|exact Hagain].
Defined.

Lemma is_valid_Some (F : serializers.Fields) (request : gmap string form_value)
    (vd : FileUploadSerializer.validated_data) :
  FileUploadSerializer.is_valid F request = Some vd →
  (request !! "audio") ≫= serializers.FileField F
  = Some (FileUploadSerializer.audio vd)
  ∧ (request !! "user_id") ≫= serializers.IntegerField F
    = Some (FileUploadSerializer.user_id vd)
  ∧ (request !! "age") ≫= serializers.IntegerField F
    = Some (FileUploadSerializer.age vd)
  ∧ ∃ raw, (request !! "gender") ≫= serializers.CharField F 10 = Some raw
           ∧ FileUploadSerializer.validate_gender raw
             = Some (FileUploadSerializer.gender vd).
Proof.
  unfold FileUploadSerializer.is_valid.
  destruct ((request !! "audio") ≫= serializers.FileField F) as [audio|];
    [|done].
  destruct ((request !! "user_id") ≫= serializers.IntegerField F) as [user_id|];
    [|done].
  destruct ((request !! "gender") ≫= serializers.CharField F 10) as [raw|];
    [|done].
  destruct ((request !! "age") ≫= serializers.IntegerField F) as [age|].
  - simpl. destruct (FileUploadSerializer.validate_gender raw) as [gender|] eqn:Hg;
      [|done].
    simpl. intros [= <-]. simpl. split_and!; [done..|by exists raw].
  - simpl. by destruct (FileUploadSerializer.validate_gender raw).
Qed.

Lemma is_valid_missing (F : serializers.Fields)
    (request : gmap string form_value) (key : string) :
  key ∈ ["audio"; "user_id"; "gender"; "age"] → request !! key = None →
  FileUploadSerializer.is_valid F request = None.
Proof.
  intros Hkey Hnone.
  destruct (FileUploadSerializer.is_valid F request) as [vd|] eqn:Hvalid;
    [|done].
  apply is_valid_Some in Hvalid as (Ha & Hu & Hage & raw & Hg & _).
  rewrite !elem_of_cons in Hkey.
  destruct Hkey as [->|[->|[->|[->|Hnil]]]]; [| | | |by apply elem_of_nil in Hnil];
    rewrite Hnone in *; done.
Qed.

(** X13: [post] answers 400 and starts no task exactly when the request
    lacks one of [audio], [user_id], [gender] and [age], a field refuses
    its value, or [gender] does not lowercase to male, female or other.  It
    starts at most one task, and answers 202 when it starts one; the
    metadata of the task hold the integers the fields read for [user_id]
    and [age] and, for [gender], the lowercase form of what the field
    read. *)
Theorem post_accepts_or_rejects (F : serializers.Fields) (settings : Settings)
    (H : Host) (request : gmap string form_value) :
  let run := post F settings H request in
  let audio := (request !! "audio") ≫= serializers.FileField F in
  let user_id := (request !! "user_id") ≫= serializers.IntegerField F in
  let gender := (request !! "gender") ≫= serializers.CharField F 10 in
  let age := (request !! "age") ≫= serializers.IntegerField F in
  (audio = None ∨ user_id = None ∨ gender = None ∨ age = None
   ∨ (∃ raw, gender = Some raw ∧ lower raw ∉ ["male"; "female"; "other"])
   ↔ run = ({| status := 400; data := ∅ |}, []))
  ∧ (∀ key, key ∈ ["audio"; "user_id"; "gender"; "age"] →
            request !! key = None →
            run = ({| status := 400; data := ∅ |}, []))
  ∧ (∀ audio_path metadata, (audio_path, metadata) ∈ run.2 →
       run.2 = [(audio_path, metadata)]
       ∧ status run.1 = 202
       ∧ ∃ u raw a,
           metadata = <["user_id" := JInt u]>
                      (<["gender" := JStr (lower raw)]>
                      (<["age" := JInt a]> ∅))
           ∧ user_id = Some u ∧ gender = Some raw ∧ age = Some a
           ∧ lower raw ∈ ["male"; "female"; "other"]).
Proof.
  intros run audio user_id gender age.
  subst run audio user_id gender age. unfold post. split; [|split].
  - destruct (FileUploadSerializer.is_valid F request) as [vd|] eqn:Hvalid.
    + apply is_valid_Some in Hvalid as (Haudio & Hu & Ha & raw & Hraw & Hg).
      unfold FileUploadSerializer.validate_gender in Hg.
      case_bool_decide as Hin; [|done].
      split; [|done]. rewrite Haudio, Hu, Ha, Hraw.
      intros [?|[?|[?|[?|(raw' & [= <-] & Hout)]]]]; done.
    + split; [done|]. intros _.
      unfold FileUploadSerializer.is_valid in Hvalid.
      destruct ((request !! "audio") ≫= serializers.FileField F) as [audio|];
        [|by left].
      destruct ((request !! "user_id") ≫= serializers.IntegerField F)
        as [user_id|]; [|by right; left].
      destruct ((request !! "gender") ≫= serializers.CharField F 10)
        as [raw|]; [|by right; right; left].
      destruct ((request !! "age") ≫= serializers.IntegerField F) as [age|];
        [|by right; right; right; left].
      right; right; right; right. exists raw. split; [done|].
      simpl in Hvalid. unfold FileUploadSerializer.validate_gender in Hvalid.
      case_bool_decide as Hin; [done|exact Hin].
  - intros key Hkey Hnone. by rewrite (is_valid_missing F request key).
  - intros audio_path metadata.
    destruct (FileUploadSerializer.is_valid F request) as [vd|] eqn:Hvalid;
      [|by intros Hin%elem_of_nil].
    cbv zeta. unfold snd at 1 2, fst at 1.
    intros Hin%list_elem_of_singleton. rewrite Hin.
    split; [done|]. split; [done|]. injection Hin as _ ->.
    apply is_valid_Some in Hvalid as (_ & Hu & Ha & raw & Hraw & Hg).
    unfold FileUploadSerializer.validate_gender in Hg.
    case_bool_decide as Hin; [|done]. injection Hg as Hg.
    eexists _, raw, _. rewrite <- Hg. done.
Qed.

Lemma post_accepts_or_rejects_witness :
  post form_fields sample_settings host
    (<["gender" := Text "unknown"]> upload_request)
  = ({| status := 400; data := ∅ |}, []).
Proof.
  destruct (post_accepts_or_rejects form_fields sample_settings host
              (<["gender" := Text "unknown"]> upload_request))
    as [Hrejected _].
  apply Hrejected. do 4 right. exists "unknown"%string.
  split; [vm_compute; reflexivity|].
  rewrite !elem_of_cons, elem_of_nil. vm_compute.
  intros [?|[?|[?|?]]]; done.
Defined.

Lemma post_metadata_topic_name (F : serializers.Fields) (settings : Settings)
    (H : Host) (request : gmap string form_value) (audio_path : string)
    (metadata : dict) :
  (audio_path, metadata) ∈ (post F settings H request).2 →
  metadata !! "topic_name" = None.
Proof.
  unfold post.
  destruct (FileUploadSerializer.is_valid F request) as [vd|];
    [|by intros Hin%elem_of_nil].
  cbv zeta. unfold snd at 1. intros Hin%list_elem_of_singleton.
  injection Hin as _ ->.
  rewrite !lookup_insert_ne by discriminate. apply lookup_empty.
Qed.

(** ** From the upload to the database *)

(** X14: a task enqueued by [post] finds its topic name in the result only.
    When the service returns an object without [topic], or with a null
    one, and the Topic column refuses [None], the task raises on the Topic
    and leaves the database as it was, whatever else the result holds. *)
Theorem upload_without_topic_fails (B : Backend) (F : serializers.Fields)
    (settings : Settings) (H : Host) (W : World)
    (request : gmap string form_value) (audio_path : string) (metadata : dict)
    (doc : dict) (db : Store) :
  (audio_path, metadata) ∈ (post F settings H request).2 →
  call_callytics settings W audio_path metadata = Return (JObj doc) →
  doc !! "topic" = None ∨ doc !! "topic" = Some JNull →
  Topic.name_column B JNull = None →
  run_callytics_pipeline B settings W audio_path metadata db
  = (db, Raise DatabaseError).
Proof.
  intros Hpost Hcall Htopic Hcolumn.
  apply post_metadata_topic_name in Hpost.
  unfold run_callytics_pipeline, pipeline, pure, mbind at 1, M_bind.
  rewrite Hcall, persist_eq.
  assert (topic_name metadata (JObj doc) = Return JNull) as ->.
  { unfold topic_name. rewrite Hpost.
    change (get (JObj doc) "topic" JNull = Return JNull). rewrite get_JObj.
    by destruct Htopic as [-> | ->]. }
  unfold Topic_get_or_create. by rewrite Hcolumn.
Qed.

Lemma upload_without_topic_fails_witness :
  run_callytics_pipeline plain sample_settings no_topic_server
    "/media/uploads/0f0f.wav" upload_metadata empty_store
  = (empty_store, Raise DatabaseError).
Proof.
  apply (upload_without_topic_fails plain form_fields sample_settings host
           no_topic_server upload_request "/media/uploads/0f0f.wav"
           upload_metadata call1_features empty_store).
  - vm_compute. left.
  - vm_compute. reflexivity.
  - left. reflexivity.
  - reflexivity.
Defined.

(** ** The tables of a session, further *)

Section Accepted.
Import Consultlytics.
Context {R K : Type} `{EqDecision K}.
Variables (db : Db) (session : R → string).

Lemma checked_insert_Return (unique : option (R → K)) (r : R)
    (t t' : table (Z * R)) :
  checked_insert db session unique r t = Return t'
  ↔ session_exists db (session r) = true
    ∧ (∀ key, unique = Some key → key r ∉ keys key t)
    ∧ t' = insert (λ id, (id, r)) t.
Proof.
  unfold checked_insert. destruct (session_exists db (session r)); simpl.
  - destruct unique as [key|].
    + case_bool_decide as Hin; split.
      * done.
      * intros (_ & Hfree & _). by destruct (Hfree key eq_refl).
      * intros [= <-]. split; [done|]. split; [|done]. by intros key' [= <-].
      * by intros (_ & _ & ->).
    + split; [intros [= <-]; by repeat split|by intros (_ & _ & ->)].
  - split; [done|]. by intros [? _].
Qed.

Lemma checked_insert_Raise (unique : option (R → K)) (r : R) (t : table (Z * R))
    (e : exn) :
  checked_insert db session unique r t = Raise e → e = IntegrityError.
Proof.
  unfold checked_insert. destruct (negb _); [by intros [= <-]|].
  destruct unique as [key|]; [|done]. by case_bool_decide; intros [= <-].
Qed.
End Accepted.

Lemma session_exists_app (db db' : Consultlytics.Db) (new : list Consultlytics.Session.t)
    (session : string) :
  Consultlytics.Session_objects db' = Consultlytics.Session_objects db ++ new →
  Consultlytics.session_exists db session = true →
  Consultlytics.session_exists db' session = true.
Proof.
  unfold Consultlytics.session_exists. intros -> Hin%bool_decide_eq_true.
  apply bool_decide_eq_true. rewrite fmap_app. apply elem_of_app. by left.
Qed.

Lemma references_ok_insert {R} (db db' : Consultlytics.Db) (session : R → string)
    (r : R) (t : table (Z * R)) :
  Consultlytics.Session_objects db' = Consultlytics.Session_objects db →
  Consultlytics.session_exists db (session r) = true →
  Forall (λ row, Consultlytics.session_exists db (session row.2) = true) (rows t) →
  Forall (λ row, Consultlytics.session_exists db' (session row.2) = true)
         (rows (insert (λ id, (id, r)) t)).
Proof.
  intros Hsame Hr Hrows.
  assert (∀ s, Consultlytics.session_exists db s = true →
               Consultlytics.session_exists db' s = true) as Hmono.
  { intros s. apply (session_exists_app db db' []). by rewrite app_nil_r. }
  simpl. apply Forall_app. split.
  - eapply Forall_impl; [exact Hrows|]. simpl. eauto.
  - constructor; [|constructor]. simpl. eauto.
Qed.

Lemma execute_references_ok (st : Consultlytics.statement) (db : Consultlytics.Db) :
  references_ok db → references_ok (Consultlytics.execute st db).1.
Proof.
  intros [Ht He Hc Hm Hr]. destruct st as [r|r|r|r|r|r]; simpl.
  - unfold Consultlytics.Session_create. case_bool_decide as Hin; [done|].
    split; simpl; (eapply Forall_impl; [eassumption|]); simpl; intros row;
      by apply (session_exists_app _ _ [r]).
  - unfold Consultlytics.TopNoun_create.
    destruct (Consultlytics.checked_insert _ _ _ _ _) as [e|t] eqn:Hins; [done|].
    apply checked_insert_Return in Hins as (Hexists & _ & ->).
    split; simpl; try done. by apply (references_ok_insert db).
  - unfold Consultlytics.EmotionScore_create.
    destruct (Consultlytics.checked_insert _ _ _ _ _) as [e|t] eqn:Hins; [done|].
    apply checked_insert_Return in Hins as (Hexists & _ & ->).
    split; simpl; try done. by apply (references_ok_insert db).
  - unfold Consultlytics.Category_create.
    destruct (Consultlytics.checked_insert _ _ _ _ _) as [e|t] eqn:Hins; [done|].
    apply checked_insert_Return in Hins as (Hexists & _ & ->).
    split; simpl; try done. by apply (references_ok_insert db).
  - unfold Consultlytics.ScriptMetric_create.
    destruct (Consultlytics.checked_insert _ _ _ _ _) as [e|t] eqn:Hins; [done|].
    apply checked_insert_Return in Hins as (Hexists & _ & ->).
    split; simpl; try done. by apply (references_ok_insert db).
  - unfold Consultlytics.ResultClassification_create.
    destruct (Consultlytics.checked_insert _ _ _ _ _) as [e|t] eqn:Hins; [done|].
    apply checked_insert_Return in Hins as (Hexists & _ & ->).
    split; simpl; try done. by apply (references_ok_insert db).
Qed.

Lemma run_references_ok (sts : list Consultlytics.statement) (db : Consultlytics.Db) :
  references_ok db → references_ok (Consultlytics.run sts db).
Proof.
  revert db. induction sts as [|st sts IH]; intros db Hdb; [done|].
  apply IH. by apply execute_references_ok.
Qed.

(** X16: in a database written by INSERTs from an empty one, in whatever
    order and with whatever refusals, the session ids are distinct and
    every TopNoun, EmotionScore, Category, ScriptMetric and
    ResultClassification row points to a Session that exists. *)
Theorem rows_point_to_sessions (sts : list Consultlytics.statement) :
  let db := Consultlytics.run sts Consultlytics.empty_db in
  NoDup (Consultlytics.Session.session_id <$> Consultlytics.Session_objects db)
  ∧ references_ok db.
Proof.
  intros db. split.
  - by destruct (run_consistent sts _ consistent_empty).
  - apply run_references_ok. split; simpl; constructor.
Qed.

(** ** Labels *)

Lemma File_topic_found (db : Store) (f : File.t) :
  Store_ok db → f ∈ rows (File_objects db) →
  ∃ t, File_topic (Topic_objects db) f = Return t
       ∧ t ∈ rows (Topic_objects db)
       ∧ Topic.id t = File.topic_id f.
Proof.
  intros Hok Hf. destruct Hok as [_ _ _ _ Hfk _].
  rewrite Forall_forall in Hfk. specialize (Hfk f Hf).
  apply list_elem_of_fmap in Hfk as (t0 & Hid & Ht0).
  unfold File_topic.
  destruct (filter _ _) as [|t rest] eqn:Hfilter.
  - assert (t0 ∈ filter (λ t, Topic.id t = File.topic_id f)
                   (rows (Topic_objects db))) as Hin
      by by apply list_elem_of_filter.
    rewrite Hfilter in Hin. by apply elem_of_nil in Hin.
  - assert (t ∈ filter (λ t, Topic.id t = File.topic_id f)
                  (rows (Topic_objects db))) as Hin by (rewrite Hfilter; left).
    apply list_elem_of_filter in Hin as [Hidt Hint]. by exists t.
Qed.

(** X17: in a database that keeps its foreign keys, the labels of the
    stored rows never fail: a File prints as its name followed by the name
    of its Topic between parentheses, and an Utterance as the fixed words
    around the label and the name of its File.  The label of an Utterance
    holds nothing of the utterance itself, so two utterances of one File
    print alike. *)
Theorem labels_of_stored_rows (db : Store) :
  Store_ok db →
  (∀ f, f ∈ rows (File_objects db) →
        ∃ t, t ∈ rows (Topic_objects db) ∧ Topic.id t = File.topic_id f
             ∧ File_str db f
               = Return (File.name f +:+ " (" +:+ Topic.name t +:+ ")")%string)
  ∧ (∀ u, u ∈ rows (Utterance_objects db) →
          ∃ f t, f ∈ rows (File_objects db) ∧ File.id f = Utterance.file_id u
                 ∧ t ∈ rows (Topic_objects db) ∧ Topic.id t = File.topic_id f
                 ∧ Utterance_str db u
                   = Return ("Utterance "
                             +:+ (File.name f +:+ " (" +:+ Topic.name t +:+ ")")
                             +:+ " of File " +:+ File.name f +:+ ")")%string)
  ∧ (∀ u u', Utterance.file_id u = Utterance.file_id u' →
             Utterance_str db u = Utterance_str db u').
Proof.
  intros Hok.
  assert (∀ f, f ∈ rows (File_objects db) →
            ∃ t, t ∈ rows (Topic_objects db) ∧ Topic.id t = File.topic_id f
                 ∧ File_str db f
                   = Return (File.name f +:+ " (" +:+ Topic.name t +:+ ")")%string)
    as Hfiles.
  { intros f Hf. destruct (File_topic_found db f Hok Hf) as (t & Ht & Hin & Hid).
    exists t. split; [done|]. split; [done|]. unfold File_str. by rewrite Ht. }
  split; [done|]. split.
  - intros u Hu.
    destruct (Utterance_file_found db u Hok Hu) as (f & Hfile & Hf & Hid).
    destruct (Hfiles f Hf) as (t & Ht & Htid & Hlabel).
    exists f, t. split; [done|]. split; [done|]. split; [done|]. split; [done|].
    unfold Utterance_str. by rewrite Hfile, bind_Return, Hlabel.
  - intros u u' Hsame. unfold Utterance_str, Utterance.file. by rewrite Hsame.
Qed.

Lemma labels_of_stored_rows_witness :
  Utterance_str after_call1 hello_row
  = Return "Utterance call1 (billing) of File call1)"%string
  ∧ Utterance_str after_call1 reply_row = Utterance_str after_call1 hello_row.
Proof.
  assert (Store_ok after_call1) as Hok.
  { unfold after_call1.
    destruct (persist plain 7 "/media/uploads/a.wav" upload_metadata
                (JObj call1) empty_store) as [db out] eqn:Hrun.
    exact (persist_ok plain _ _ _ _ _ _ _ Store_ok_empty Hrun). }
  destruct (labels_of_stored_rows after_call1 Hok) as (_ & _ & Hsame).
  split; [vm_compute; reflexivity|]. by apply Hsame.
Defined.

Lemma session_of_found (db : Consultlytics.Db) (session : string) :
  Consultlytics.session_exists db session = true →
  ∃ s, session_of db session = Return s
       ∧ Consultlytics.Session.session_id s = session.
Proof.
  unfold Consultlytics.session_exists, session_of.
  intros Hin%bool_decide_eq_true.
  apply list_elem_of_fmap in Hin as (s0 & Hid & Hs0).
  destruct (filter _ _) as [|s rest] eqn:Hfilter.
  - assert (s0 ∈ filter (λ s, Consultlytics.Session.session_id s = session)
                   (Consultlytics.Session_objects db)) as Hin
      by by apply list_elem_of_filter.
    rewrite Hfilter in Hin. by apply elem_of_nil in Hin.
  - assert (s ∈ filter (λ s, Consultlytics.Session.session_id s = session)
                  (Consultlytics.Session_objects db)) as Hin
      by (rewrite Hfilter; left).
    apply list_elem_of_filter in Hin as [Hids _]. by exists s.
Qed.

(** X18: in a database written by INSERTs from an empty one, the label of
    every row of a table of a session is computed without failure, and it
    ends with the session id the row was inserted with. *)
Theorem labels_of_session_rows (sts : list Consultlytics.statement) :
  let db := Consultlytics.run sts Consultlytics.empty_db in
  (∀ row, row ∈ rows (Consultlytics.TopNoun_objects db) →
          TopNoun_str db row.2
          = Return ("Top Nouns for " +:+ Consultlytics.TopNoun.session row.2)%string)
  ∧ (∀ row, row ∈ rows (Consultlytics.EmotionScore_objects db) →
            EmotionScore_str db row.2
            = Return ("Emotion(" +:+ Consultlytics.EmotionScore.actor row.2
                      +:+ ") @ " +:+ Consultlytics.EmotionScore.session row.2)%string)
  ∧ (∀ row, row ∈ rows (Consultlytics.Category_objects db) →
            Category_str db row.2
            = Return ("Category @ " +:+ Consultlytics.Category.session row.2)%string)
  ∧ (∀ row, row ∈ rows (Consultlytics.ScriptMetric_objects db) →
            ScriptMetric_str db row.2
            = Return ("ScriptMetric @ "
                      +:+ Consultlytics.ScriptMetric.session row.2)%string)
  ∧ (∀ row, row ∈ rows (Consultlytics.ResultClassification_objects db) →
            ResultClassification_str db row.2
            = Return ("Result " +:+ Consultlytics.ResultClassification.label row.2
                      +:+ " @ "
                      +:+ Consultlytics.ResultClassification.session row.2)%string).
Proof.
  intros db.
  assert (references_ok db) as [Ht He Hc Hm Hr].
  { apply run_references_ok. split; simpl; constructor. }
  rewrite Forall_forall in Ht. rewrite Forall_forall in He.
  rewrite Forall_forall in Hc. rewrite Forall_forall in Hm.
  rewrite Forall_forall in Hr.
  split; [|split; [|split; [|split]]]; intros row Hrow.
  - destruct (session_of_found db _ (Ht row Hrow)) as (s & Hs & Hid).
    unfold TopNoun_str. by rewrite Hs, bind_Return, Hid.
  - destruct (session_of_found db _ (He row Hrow)) as (s & Hs & Hid).
    unfold EmotionScore_str. by rewrite Hs, bind_Return, Hid.
  - destruct (session_of_found db _ (Hc row Hrow)) as (s & Hs & Hid).
    unfold Category_str. by rewrite Hs, bind_Return, Hid.
  - destruct (session_of_found db _ (Hm row Hrow)) as (s & Hs & Hid).
    unfold ScriptMetric_str. by rewrite Hs, bind_Return, Hid.
  - destruct (session_of_found db _ (Hr row Hrow)) as (s & Hs & Hid).
    unfold ResultClassification_str. by rewrite Hs, bind_Return, Hid.
Qed.

Lemma labels_of_session_rows_witness :
  let db := Consultlytics.run session_a_written Consultlytics.empty_db in
  EmotionScore_str db (emotion "customer" "neutral")
  = Return "Emotion(customer) @ a"%string.
Proof.
  intros db.
  destruct (labels_of_session_rows session_a_written) as (_ & He & _).
  apply (He (1, emotion "customer" "neutral")). vm_compute. left.
Defined.
